(** * gomodguard: blocked-module policy and import scanning

    A shallow embedding of [gomodguard.go].  Go strings are byte
    sequences, modelled by [string] (a list of 8-bit [ascii]); Go [int]s
    that the program stores are modelled by [Z]; a Go [error] is modelled
    by the text its [Error()] method returns.

    Pointer receivers ([p *Processor]) are modelled by explicit passing of
    the [Processor] record: a method that assigns to a field returns the
    updated record.  Calls that leave the process (reading a file, running
    the Go parser, writing to the logger) run in the [IO] monad, a state
    monad over the trace of such calls. *)

From Stdlib Require Import String Ascii List Bool ZArith Lia.
From Stdlib Require DecimalString DecimalZ.
From ExtLib Require Import Structures.Monad Structures.MonadState.
From ExtLib Require Import Data.Monads.StateMonad.
Import ListNotations.
Import MonadNotation.
Local Open Scope list_scope.
Local Open Scope string_scope.
Local Open Scope monad_scope.

(** ** The part of Go's [strings] package the program calls *)

Module strings.

(** [utf8.RuneSelf]: bytes below it are single-byte (ASCII) runes. *)
Definition RuneSelf : nat := 128.

Definition isUpper (c : ascii) : bool :=
  (65 <=? nat_of_ascii c)%nat && (nat_of_ascii c <=? 90)%nat.

(** [c += 'a' - 'A'] on an upper-case ASCII byte. *)
Definition lowerByte (c : ascii) : ascii :=
  if isUpper c then ascii_of_nat (nat_of_ascii c + 32) else c.

Fixpoint isASCII (s : string) : bool :=
  match s with
  | EmptyString => true
  | String c s' => (nat_of_ascii c <? RuneSelf)%nat && isASCII s'
  end.

Fixpoint mapBytes (f : ascii -> ascii) (s : string) : string :=
  match s with
  | EmptyString => EmptyString
  | String c s' => String (f c) (mapBytes f s')
  end.

(** [strings.HasPrefix(s, prefix)]:
    [len(s) >= len(prefix) && s[:len(prefix)] == prefix]. *)
Fixpoint HasPrefix (s prefix : string) : bool :=
  match prefix, s with
  | EmptyString, _ => true
  | String _ _, EmptyString => false
  | String b prefix', String a s' => Ascii.eqb a b && HasPrefix s' prefix'
  end.

(** [trimLeftByte(s, c)]: drop leading bytes equal to [c]. *)
Fixpoint trimLeftByte (s : string) (c : ascii) : string :=
  match s with
  | EmptyString => EmptyString
  | String a s' => if Ascii.eqb a c then trimLeftByte s' c else s
  end.

(** [trimRightByte(s, c)]: drop trailing bytes equal to [c]. *)
Fixpoint trimRightByte (s : string) (c : ascii) : string :=
  match s with
  | EmptyString => EmptyString
  | String a s' =>
      match trimRightByte s' c with
      | EmptyString => if Ascii.eqb a c then EmptyString else String a EmptyString
      | r => String a r
      end
  end.

(** [strings.Trim(s, cutset)] for a cutset of one ASCII byte, the only way
    the program calls it. *)
Definition Trim (s : string) (c : ascii) : string :=
  trimLeftByte (trimRightByte s c) c.

Section Unicode.

(** Go's case tables are outside the repository.  The two variables stand
    for what the package does once it has met a byte that is not ASCII:
    [Map(unicode.ToLower, s)] and the rune-by-rune [SimpleFold] loop of
    [EqualFold] on the two remainders.  Every theorem below holds for any
    such tables; on ASCII strings the functions never consult them. *)
Variable unicodeToLower : string -> string.
Variable unicodeEqualFold : string -> string -> bool.

(** [strings.ToLower]: ASCII strings are lowered byte by byte, any other
    string goes through the Unicode mapping. *)
Definition ToLower (s : string) : string :=
  if isASCII s then mapBytes lowerByte s else unicodeToLower s.

(** [strings.EqualFold]: the ASCII fast path compares byte by byte up to
    case and hands the remainders over at the first byte that is not
    ASCII. *)
Fixpoint EqualFold (s t : string) : bool :=
  match s, t with
  | String sr s', String tr t' =>
      if ((nat_of_ascii sr <? RuneSelf)%nat && (nat_of_ascii tr <? RuneSelf)%nat)%bool
      then
        if Ascii.eqb sr tr then EqualFold s' t'
        else if isUpper sr && Ascii.eqb tr (lowerByte sr) then EqualFold s' t'
        else if isUpper tr && Ascii.eqb sr (lowerByte tr) then EqualFold s' t'
        else false
      else unicodeEqualFold s t
  | EmptyString, EmptyString => true
  | _, _ => false
  end.

End Unicode.

End strings.

(** ** Data model *)

(** A Go [error], by the text of its [Error()] method. *)
Definition error : Type := string.

(** [Replacement]: a list of blocked modules with a replacement module and
    the reason why it should be replaced. *)
Record Replacement : Type := mkReplacement {
  Modules : list string;
  Replacement_ : string;
  Reason : string
}.

Definition Replacements : Type := list Replacement.

Record Allow : Type := mkAllow {
  Allow_Modules : list string;
  Allow_Domains : list string
}.

Record Configuration : Type := mkConfiguration {
  Config_Allow : Allow;
  Config_Replacements : Replacements
}.

Module token.
(** [token.Position]; its zero value is what a [Result] built without a
    position holds. *)
Record Position : Type := mkPosition {
  Filename : string;
  Offset : Z;
  Line : Z;
  Column : Z
}.
Definition zero : Position := mkPosition EmptyString 0 0 0.
(** [token.Pos], a compact encoding of a source position. *)
Definition Pos : Type := Z.
(** A [*token.FileSet] after parsing, by the one thing the program asks
    of it: [fileset.Position(pos)]. *)
Definition FileSet : Type := Pos -> Position.
End token.

Record Result : Type := mkResult {
  FileName : string;
  LineNumber : Z;
  Position : token.Position;
  Result_Reason : string
}.

Module module.
(** [module.Version] of golang.org/x/mod. *)
Record Version : Type := mkVersion { Path : string; Version_ : string }.
End module.

Module modfile.
(** One [require] line of go.mod. *)
Record Require : Type := mkRequire { Mod : module.Version; Indirect : bool }.
(** [modfile.File], by its [Require] list. *)
Record File : Type := mkFile { Require_ : list Require }.
End modfile.

Module ast.
(** [ast.ImportSpec], by [Path.Value] (the literal as written, quotes
    included) and [Pos()]. *)
Record ImportSpec : Type := mkImportSpec { Path_Value : string; Pos : token.Pos }.
(** [ast.File], by its [Imports]. *)
Record File : Type := mkFile { Imports : list ImportSpec }.
End ast.

(** [*log.Logger]: a handle; what is printed through it is recorded in the
    trace. *)
Inductive Logger : Type := LoggerRef (id : nat).

Record Processor : Type := mkProcessor {
  config : Configuration;
  logger : Logger;
  modfile_ : modfile.File;
  blockedModules : list string;
  result : list Result
}.

(** ** The world outside the process *)

(** An operand of a [Printf] call on the logger. *)
Inductive Operand : Type :=
| OInt (n : Z)
| OStrings (xs : list string).

(** One call that leaves the process. *)
Inductive Event : Type :=
| EvReadFile (filename : string)
| EvModfileParse (file : string) (data : string)
| EvParseFile (filename : string) (src : string)
| EvPrintf (l : Logger) (format : string) (args : list Operand).

Definition Trace : Type := list Event.

(** What the calls answer.  [ReadFile] is Go's [(data, err)] pair: the
    bytes read so far and the error, if any.  [ParseFile] is the file set
    it filled, the (possibly partial) syntax tree and the error, if any.
    The file system is taken not to change while the program runs. *)
Class Platform : Type := mkPlatform {
  unicodeToLower : string -> string;
  unicodeEqualFold : string -> string -> bool;
  ReadFile : string -> string * option error;
  modfileParse : string -> string -> modfile.File + error;
  ParseFile : string -> string -> token.FileSet * ast.File * option error
}.

Definition IO : Type -> Type := state Trace.

Definition emit (e : Event) : IO unit :=
  modify (fun t => (t ++ [e])%list) ;; ret tt.

(** ** The program *)

Definition blockedReasonPrefix : string := "import of package `".
Definition blockedReasonSuffix : string :=
  "` is blocked because the module is not in the allowed modules list.".

(** [fmt.Sprintf(blockedReason, pkg)]: the format holds one [%s], between
    two backquotes. *)
Definition blockedReason (pkg : string) : string :=
  blockedReasonPrefix ++ pkg ++ blockedReasonSuffix.

Definition goModFile : string := "go.mod".

(** The double-quote byte 0x22, the cutset of the [strings.Trim] call. *)
Definition dquote : ascii := ascii_of_nat 34.

(** The verb [%d] on a Go [int]: its decimal digits, after a minus sign
    when it is negative. *)
Definition itoa (n : Z) : string :=
  DecimalString.NilEmpty.string_of_int (Z.to_int n).

(** [func (r *Result) String() string]: the format is [%s:%d: %s]. *)
Definition Result_String (r : Result) : string :=
  FileName r ++ ":" ++ itoa (LineNumber r) ++ ": " ++ Result_Reason r.

Section Program.

Context {platform : Platform}.

Definition ToLower : string -> string := strings.ToLower unicodeToLower.
Definition EqualFold : string -> string -> bool := strings.EqualFold unicodeEqualFold.

Definition ioutil_ReadFile (filename : string) : IO (string * option error) :=
  emit (EvReadFile filename) ;; ret (ReadFile filename).

Definition modfile_Parse (file data : string) : IO (modfile.File + error) :=
  emit (EvModfileParse file data) ;; ret (modfileParse file data).

Definition parser_ParseFile (filename src : string)
  : IO (token.FileSet * ast.File * option error) :=
  emit (EvParseFile filename src) ;; ret (ParseFile filename src).

Definition Printf (l : Logger) (format : string) (args : list Operand) : IO unit :=
  emit (EvPrintf l format args).

(** [func (r *Replacement) String() string] *)
Definition Replacement_String (r : Replacement) : string :=
  "`" ++ Replacement_ r ++ "` should be used instead. reason: " ++ Reason r.

(** The loop of [HasReplacement] over [r.Modules]. *)
Fixpoint HasReplacement_loop (modules : list string) (pkg : string) : bool :=
  match modules with
  | [] => false
  | m :: rest =>
      if strings.HasPrefix (ToLower pkg) (ToLower m) then true
      else HasReplacement_loop rest pkg
  end.

(** [func (r *Replacement) HasReplacement(pkg string) bool] *)
Definition HasReplacement (r : Replacement) (pkg : string) : bool :=
  HasReplacement_loop (Modules r) pkg.

(** [func (r Replacements) Get(pkg string) *Replacement]: [Some] of the
    element pointed to, [None] for [nil]. *)
Fixpoint Get (r : Replacements) (pkg : string) : option Replacement :=
  match r with
  | [] => None
  | ri :: rest => if HasReplacement ri pkg then Some ri else Get rest pkg
  end.

Fixpoint isAllowedModuleDomain_loop (domains : list string) (module : string) : bool :=
  match domains with
  | [] => false
  | d :: rest =>
      if strings.HasPrefix (ToLower module) (ToLower d) then true
      else isAllowedModuleDomain_loop rest module
  end.

(** [func (p *Processor) isAllowedModuleDomain(module string) bool] *)
Definition isAllowedModuleDomain (p : Processor) (module : string) : bool :=
  isAllowedModuleDomain_loop (Allow_Domains (Config_Allow (config p))) module.

Fixpoint isAllowedModule_loop (modules : list string) (module : string) : bool :=
  match modules with
  | [] => false
  | m :: rest =>
      if EqualFold module m then true else isAllowedModule_loop rest module
  end.

(** [func (p *Processor) isAllowedModule(module string) bool] *)
Definition isAllowedModule (p : Processor) (module : string) : bool :=
  isAllowedModule_loop (Allow_Modules (Config_Allow (config p))) module.

Fixpoint isBlockedPackage_loop (blocked : list string) (pkg : string) : bool :=
  match blocked with
  | [] => false
  | b :: rest =>
      if strings.HasPrefix (ToLower pkg) (ToLower b) then true
      else isBlockedPackage_loop rest pkg
  end.

(** [func (p *Processor) isBlockedPackage(pkg string) bool] *)
Definition isBlockedPackage (p : Processor) (pkg : string) : bool :=
  isBlockedPackage_loop (blockedModules p) pkg.

Definition set_blockedModules (p : Processor) (b : list string) : Processor :=
  mkProcessor (config p) (logger p) (modfile_ p) b (result p).

Definition set_result (p : Processor) (r : list Result) : Processor :=
  mkProcessor (config p) (logger p) (modfile_ p) (blockedModules p) r.

(** The loop of [setBlockedModules]: [blocked] is the local slice built so
    far. *)
Fixpoint setBlockedModules_loop (p : Processor) (require : list modfile.Require)
    (blocked : list string) : list string :=
  match require with
  | [] => blocked
  | r :: rest =>
      if negb (modfile.Indirect r) then
        if isAllowedModuleDomain p (module.Path (modfile.Mod r))
        then setBlockedModules_loop p rest blocked
        else if isAllowedModule p (module.Path (modfile.Mod r))
        then setBlockedModules_loop p rest blocked
        else setBlockedModules_loop p rest
               (blocked ++ [module.Path (modfile.Mod r)])%list
      else setBlockedModules_loop p rest blocked
  end.

(** [func (p *Processor) setBlockedModules()] *)
Definition setBlockedModules (p : Processor) : Processor :=
  set_blockedModules p (setBlockedModules_loop p (modfile.Require_ (modfile_ p)) []).

(** [func (p *Processor) addError(fileset, pos, reason)] *)
Definition addError (p : Processor) (fileset : token.FileSet) (pos : token.Pos)
    (reason : string) : Processor :=
  let position := fileset pos in
  set_result p (result p ++
    [mkResult (token.Filename position) (token.Line position) position reason])%list.

(** The loop of [process] over [file.Imports]. *)
Fixpoint process_loop (p : Processor) (fileSet : token.FileSet)
    (imports : list ast.ImportSpec) : Processor :=
  match imports with
  | [] => p
  | imp :: rest =>
      let pkg := strings.Trim (ast.Path_Value imp) dquote in
      if isBlockedPackage p pkg then
        let reason := blockedReason pkg in
        let reason :=
          match Get (Config_Replacements (config p)) pkg with
          | Some replacement => reason ++ " " ++ Replacement_String replacement
          | None => reason
          end in
        process_loop (addError p fileSet (ast.Pos imp) reason) fileSet rest
      else process_loop p fileSet rest
  end.

(** [func (p *Processor) process(filename string, data []byte)] *)
Definition process (p : Processor) (filename data : string) : IO Processor :=
  '(fileSet, file, err) <- parser_ParseFile filename data ;;
  match err with
  | Some e =>
      ret (set_result p (result p ++
        [mkResult filename 0 token.zero
           ("invalid syntax, file cannot be linted (" ++ e ++ ")")])%list)
  | None => ret (process_loop p fileSet (ast.Imports file))
  end.

(** The loop of [ProcessFiles] over [filenames]. *)
Fixpoint ProcessFiles_loop (p : Processor) (filenames : list string) : IO Processor :=
  match filenames with
  | [] => ret p
  | filename :: rest =>
      '(data, err) <- ioutil_ReadFile filename ;;
      let p :=
        match err with
        | Some e =>
            set_result p (result p ++
              [mkResult filename 0 token.zero
                 ("unable to read file, file cannot be linted (" ++ e ++ ")")])%list
        | None => p
        end in
      p <- process p filename data ;;
      ProcessFiles_loop p rest
  end.

(** [func (p *Processor) ProcessFiles(filenames []string) []Result]: the
    processor after the call and the slice returned. *)
Definition ProcessFiles (p : Processor) (filenames : list string)
  : IO (Processor * list Result) :=
  Printf (logger p) "info: go.mod file has '%d' blocked module(s), %+v"
    [OInt (Z.of_nat (List.length (blockedModules p))); OStrings (blockedModules p)] ;;
  if (List.length (blockedModules p) =? 0)%nat then ret (p, result p)
  else
    p <- ProcessFiles_loop p filenames ;;
    ret (p, result p).

(** The error [NewProcessor] returns: [fmt.Errorf(errMsg)], by its format
    string. *)
Inductive Errorf : Type := fmt_Errorf (format : string).

(** [func NewProcessor(config, logger)]: [inl] of the processor built, or
    [inr] of the error (Go returns the pair of a pointer and an error, one
    of them nil). *)
Definition NewProcessor (config : Configuration) (logger : Logger)
  : IO (Processor + Errorf) :=
  '(moddata, err) <- ioutil_ReadFile goModFile ;;
  match err with
  | Some e =>
      let errMsg := "unable to read go.mod file: " ++ e in
      Printf logger errMsg [] ;;
      ret (inr (fmt_Errorf errMsg))
  | None =>
      mfile <- modfile_Parse goModFile moddata ;;
      match mfile with
      | inr e =>
          let errMsg := "unable to parse go.mod file: " ++ e in
          Printf logger errMsg [] ;;
          ret (inr (fmt_Errorf errMsg))
      | inl mfile =>
          Printf logger "info: allowed modules, %+v"
            [OStrings (Allow_Modules (Config_Allow config))] ;;
          Printf logger "info: allowed module domains, %+v"
            [OStrings (Allow_Domains (Config_Allow config))] ;;
          let p := mkProcessor config logger mfile [] [] in
          ret (inl (setBlockedModules p))
      end
  end.

End Program.

(** ** The specification's reading of the program

    Each definition of this part follows the words of the specification;
    the theorems compare it with the code above. *)

Section Specification.

Context {platform : Platform}.

(** The package path the scanner matches: the import literal without its
    double quotes. *)
Definition importPath (imp : ast.ImportSpec) : string :=
  strings.Trim (ast.Path_Value imp) dquote.

(** A requirement is covered by the allow configuration: its lowercase
    path starts with a lowercase domain prefix, or it equals an allowed
    module up to case. *)
Definition spec_allowed (allow : Allow) (m : string) : bool :=
  existsb (fun d => strings.HasPrefix (ToLower m) (ToLower d)) (Allow_Domains allow)
  || existsb (fun a => EqualFold m a) (Allow_Modules allow).

(** [computeBlockedModules(dependencies, allow)]: the paths of the direct
    dependencies that the allow configuration does not cover, in input
    order. *)
Definition spec_computeBlockedModules (dependencies : list modfile.Require)
    (allow : Allow) : list string :=
  map (fun r => module.Path (modfile.Mod r))
    (filter (fun r => negb (modfile.Indirect r)
                      && negb (spec_allowed allow (module.Path (modfile.Mod r))))
       dependencies).

(** The message of a blocked import as the code builds it: the base
    message with the path between backquotes, then, when a rule applies,
    a space and the rule's suggestion. *)
Definition spec_message (replacements : Replacements) (pkg : string) : string :=
  ("import of package `" ++ pkg
   ++ "` is blocked because the module is not in the allowed modules list.")
  ++ match Get replacements pkg with
     | Some r => " `" ++ Replacement_ r ++ "` should be used instead. reason: " ++ Reason r
     | None => EmptyString
     end.


(** The diagnostic of one blocked import, at the import's position. *)
Definition importResult (p : Processor) (fileSet : token.FileSet)
    (imp : ast.ImportSpec) : Result :=
  mkResult (token.Filename (fileSet (ast.Pos imp))) (token.Line (fileSet (ast.Pos imp)))
    (fileSet (ast.Pos imp))
    (spec_message (Config_Replacements (config p)) (importPath imp)).

(** The diagnostics of the imports of one file: one per blocked import, in
    declaration order. *)
Definition importResults (p : Processor) (fileSet : token.FileSet)
    (imports : list ast.ImportSpec) : list Result :=
  map (importResult p fileSet)
    (filter (fun imp => isBlockedPackage p (importPath imp)) imports).

Definition readErrorResult (filename : string) (e : error) : Result :=
  mkResult filename 0 token.zero
    ("unable to read file, file cannot be linted (" ++ e ++ ")").

Definition parseErrorResult (filename : string) (e : error) : Result :=
  mkResult filename 0 token.zero
    ("invalid syntax, file cannot be linted (" ++ e ++ ")").

(** What the read step contributes for one file. *)
Definition readResults (filename : string) : list Result :=
  match snd (ReadFile filename) with
  | Some e => [readErrorResult filename e]
  | None => []
  end.

(** What the parse and match steps contribute for one file, run on the
    bytes the read returned. *)
Definition parseResults (p : Processor) (filename : string) : list Result :=
  let '(fileSet, file, err) := ParseFile filename (fst (ReadFile filename)) in
  match err with
  | Some e => [parseErrorResult filename e]
  | None => importResults p fileSet (ast.Imports file)
  end.

(** The diagnostics of one submitted file. *)
Definition fileResults (p : Processor) (filename : string) : list Result :=
  (readResults filename ++ parseResults p filename)%list.

(** The outside calls made for one submitted file. *)
Definition fileEvents (filename : string) : list Event :=
  [EvReadFile filename; EvParseFile filename (fst (ReadFile filename))].

(** The diagnostics produced during one call of [ProcessFiles]. *)
Definition produced (p : Processor) (filenames : list string) : list Result :=
  match blockedModules p with
  | [] => []
  | _ :: _ => flat_map (fileResults p) filenames
  end.

(** The processors a client can hold: built by [NewProcessor], then used
    for any number of [ProcessFiles] calls (the fields are unexported). *)
Inductive Reachable : Processor -> Prop :=
| Reachable_New : forall config logger t p,
    fst (runState (NewProcessor config logger) t) = inl p -> Reachable p
| Reachable_ProcessFiles : forall p filenames t,
    Reachable p ->
    Reachable (fst (fst (runState (ProcessFiles p filenames) t))).

End Specification.

(** ** A concrete project, for the examples *)

Module Example.

(** An import literal: the path between double quotes. *)
Definition quoted (s : string) : string :=
  String dquote (s ++ String dquote EmptyString).

Definition goMod : modfile.File :=
  modfile.mkFile
    [modfile.mkRequire (module.mkVersion "github.com/evil/pkg" "v1.0.0") false;
     modfile.mkRequire (module.mkVersion "github.com/ok/pkg" "v1.2.0") false;
     modfile.mkRequire (module.mkVersion "github.com/far/away" "v0.1.0") true].

(** main.go imports fmt and two third-party packages; broken.go has an
    import and then a syntax error; missing.go does not exist. *)
Definition mainImports : list ast.ImportSpec :=
  [ast.mkImportSpec (quoted "fmt") 24%Z;
   ast.mkImportSpec (quoted "GitHub.com/evil/pkg/sub") 31%Z;
   ast.mkImportSpec (quoted "github.com/ok/pkg") 58%Z].

Definition lineOf (pos : token.Pos) : Z := (pos / 8)%Z.

Definition fileSetOf (filename : string) : token.FileSet :=
  fun pos => token.mkPosition filename pos (lineOf pos) 2%Z.

Definition readFile (filename : string) : string * option error :=
  if String.eqb filename "go.mod" then ("module example.com/app", None)
  else if String.eqb filename "main.go" then ("package main; import (...)", None)
  else if String.eqb filename "broken.go" then ("package main; import (...); func {", None)
  else (EmptyString, Some ("open " ++ filename ++ ": no such file or directory")).

(** The Go parser on the three sources: an empty source has no package
    clause, which is a syntax error. *)
Definition parseFile (filename src : string)
  : token.FileSet * ast.File * option error :=
  if String.eqb src "package main; import (...)"
  then (fileSetOf filename, ast.mkFile mainImports, None)
  else if String.eqb src "package main; import (...); func {"
  then (fileSetOf filename,
        ast.mkFile [ast.mkImportSpec (quoted "github.com/evil/pkg") 24%Z],
        Some (filename ++ ":1:34: expected 'IDENT', found '{'"))
  else (fileSetOf filename, ast.mkFile [],
        Some (filename ++ ":1:1: expected 'package', found 'EOF'")).

#[local] Instance platform : Platform :=
  mkPlatform (fun s => s) (fun _ _ => false) readFile
    (fun _ _ => inl goMod) parseFile.

Definition allowOk : Allow := mkAllow [] ["github.com/ok"].

Definition replacements : Replacements :=
  [mkReplacement ["github.com/evil/pkg"] "github.com/good/pkg" "unmaintained";
   mkReplacement ["github.com/evil"] "github.com/fine/pkg" "second choice"].

Definition configuration : Configuration := mkConfiguration allowOk replacements.

(** The processor [NewProcessor] builds for this project. *)
Definition processor : Processor :=
  mkProcessor configuration (LoggerRef 0) goMod ["github.com/evil/pkg"] [].

(** A project whose every direct dependency is allowed. *)
Definition configurationAll : Configuration :=
  mkConfiguration (mkAllow ["github.com/evil/pkg"] ["github.com/ok"]) [].

Definition processorAll : Processor :=
  mkProcessor configurationAll (LoggerRef 0) goMod [] [].

(** The one diagnostic of main.go: its second import, at line 3. *)
Definition mainResult : Result :=
  mkResult "main.go" 3 (token.mkPosition "main.go" 31 3 2)
    "import of package `GitHub.com/evil/pkg/sub` is blocked because the module is not in the allowed modules list. `github.com/good/pkg` should be used instead. reason: unmaintained".

End Example.

(** ** The same project with two more files

    quoted.go imports the blocked module with the path between double
    quotes, raw.go imports it with the path between backquotes (a raw
    string literal, which Go accepts for an import path).  For either
    file the Go parser keeps the literal as written in [Path.Value]. *)

Module ExampleRaw.

Definition quotedSource : string :=
  "package main; import " ++ Example.quoted "github.com/evil/pkg".

Definition rawSource : string := "package main; import `github.com/evil/pkg`".

Definition readFile (filename : string) : string * option error :=
  if String.eqb filename "go.mod" then ("module example.com/app", None)
  else if String.eqb filename "quoted.go" then (quotedSource, None)
  else if String.eqb filename "raw.go" then (rawSource, None)
  else (EmptyString, Some ("open " ++ filename ++ ": no such file or directory")).

Definition parseFile (filename src : string)
  : token.FileSet * ast.File * option error :=
  if String.eqb src quotedSource
  then (Example.fileSetOf filename,
        ast.mkFile [ast.mkImportSpec (Example.quoted "github.com/evil/pkg") 21%Z],
        None)
  else if String.eqb src rawSource
  then (Example.fileSetOf filename,
        ast.mkFile [ast.mkImportSpec "`github.com/evil/pkg`" 21%Z],
        None)
  else (Example.fileSetOf filename, ast.mkFile [],
        Some (filename ++ ":1:1: expected 'package', found 'EOF'")).

#[local] Instance platform : Platform :=
  mkPlatform (fun s => s) (fun _ _ => false) readFile
    (fun _ _ => inl Example.goMod) parseFile.

(** The diagnostic of quoted.go. *)
Definition quotedResult : Result :=
  mkResult "quoted.go" 2 (token.mkPosition "quoted.go" 21 2 2)
    "import of package `github.com/evil/pkg` is blocked because the module is not in the allowed modules list. `github.com/good/pkg` should be used instead. reason: unmaintained".

End ExampleRaw.

(** ** Checking a property of bytes on all 256 of them *)

Definition all_bool (f : bool -> bool) : bool := f true && f false.

Definition all_ascii (f : ascii -> bool) : bool :=
  all_bool (fun b0 => all_bool (fun b1 => all_bool (fun b2 => all_bool (fun b3 =>
  all_bool (fun b4 => all_bool (fun b5 => all_bool (fun b6 => all_bool (fun b7 =>
    f (Ascii b0 b1 b2 b3 b4 b5 b6 b7))))))))).

(** A byte below [utf8.RuneSelf]. *)
Definition isASCIIByte (c : ascii) : bool := (nat_of_ascii c <? strings.RuneSelf)%nat.

(** ** The loops as list functions *)

Section Loops.

Context {platform : Platform}.

Lemma HasReplacement_loop_existsb (modules : list string) (pkg : string) :
  HasReplacement_loop modules pkg
  = existsb (fun m => strings.HasPrefix (ToLower pkg) (ToLower m)) modules.
Proof.
  induction modules as [|m rest IH]; simpl; [reflexivity|].
  rewrite IH. now destruct (strings.HasPrefix _ _).
Qed.

Lemma isAllowedModuleDomain_loop_existsb (domains : list string) (m : string) :
  isAllowedModuleDomain_loop domains m
  = existsb (fun d => strings.HasPrefix (ToLower m) (ToLower d)) domains.
Proof.
  induction domains as [|d rest IH]; simpl; [reflexivity|].
  rewrite IH. now destruct (strings.HasPrefix _ _).
Qed.

Lemma isAllowedModule_loop_existsb (modules : list string) (m : string) :
  isAllowedModule_loop modules m = existsb (fun a => EqualFold m a) modules.
Proof.
  induction modules as [|a rest IH]; simpl; [reflexivity|].
  rewrite IH. now destruct (EqualFold m a).
Qed.

Lemma isBlockedPackage_loop_existsb (blocked : list string) (pkg : string) :
  isBlockedPackage_loop blocked pkg
  = existsb (fun b => strings.HasPrefix (ToLower pkg) (ToLower b)) blocked.
Proof.
  induction blocked as [|b rest IH]; simpl; [reflexivity|].
  rewrite IH. now destruct (strings.HasPrefix _ _).
Qed.

Lemma allowed_spec (p : Processor) (m : string) :
  isAllowedModuleDomain p m || isAllowedModule p m
  = spec_allowed (Config_Allow (config p)) m.
Proof.
  unfold isAllowedModuleDomain, isAllowedModule, spec_allowed.
  now rewrite isAllowedModuleDomain_loop_existsb, isAllowedModule_loop_existsb.
Qed.

(** The loop appends to the slice it was given, whatever that slice is. *)
Lemma setBlockedModules_loop_app (p : Processor) (require : list modfile.Require) :
  forall blocked,
    setBlockedModules_loop p require blocked
    = (blocked ++ spec_computeBlockedModules require (Config_Allow (config p)))%list.
Proof.
  unfold spec_computeBlockedModules.
  induction require as [|r rest IH]; intros blocked; simpl.
  - now rewrite app_nil_r.
  - rewrite <- allowed_spec.
    destruct (modfile.Indirect r); simpl; [apply IH|].
    destruct (isAllowedModuleDomain p _); simpl; [apply IH|].
    destruct (isAllowedModule p _); simpl; [apply IH|].
    rewrite IH, <- app_assoc. reflexivity.
Qed.

Lemma setBlockedModules_blocked (p : Processor) :
  blockedModules (setBlockedModules p)
  = spec_computeBlockedModules (modfile.Require_ (modfile_ p)) (Config_Allow (config p)).
Proof.
  unfold setBlockedModules. simpl. now rewrite setBlockedModules_loop_app.
Qed.

Lemma existsb_false_iff {A : Type} (f : A -> bool) (l : list A) :
  existsb f l = false <-> forall x, In x l -> f x = false.
Proof.
  induction l as [|a l IH]; simpl.
  - split; [intros _ x []|reflexivity].
  - rewrite orb_false_iff, IH. split.
    + intros [Ha Hl] x [<-|Hx]; auto.
    + intros H. split; [apply H; now left|intros x Hx; apply H; now right].
Qed.

Lemma spec_allowed_false_iff (allow : Allow) (m : string) :
  spec_allowed allow m = false <->
  (forall d, In d (Allow_Domains allow) ->
     strings.HasPrefix (ToLower m) (ToLower d) = false)
  /\ (forall a, In a (Allow_Modules allow) -> EqualFold m a = false).
Proof.
  unfold spec_allowed. now rewrite orb_false_iff, !existsb_false_iff.
Qed.

(** What [NewProcessor] returns, call by call. *)
Lemma NewProcessor_run (config : Configuration) (logger : Logger) (t : Trace) :
  fst (runState (NewProcessor config logger) t)
  = match snd (ReadFile goModFile) with
    | Some e => inr (fmt_Errorf ("unable to read go.mod file: " ++ e))
    | None =>
        match modfileParse goModFile (fst (ReadFile goModFile)) with
        | inr e => inr (fmt_Errorf ("unable to parse go.mod file: " ++ e))
        | inl mfile => inl (setBlockedModules (mkProcessor config logger mfile [] []))
        end
    end.
Proof.
  unfold NewProcessor, ioutil_ReadFile, modfile_Parse, Printf, emit. simpl.
  destruct (ReadFile goModFile) as [moddata [e|]]; simpl; [reflexivity|].
  destruct (modfileParse goModFile moddata) as [mfile|e]; reflexivity.
Qed.

End Loops.

(** ** Policy resolver *)

Section PolicyResolver.

Context {platform : Platform}.

(** C1: the blocked-module list that [setBlockedModules] stores, and so
    the one a processor built by [NewProcessor] holds, is the list of the
    paths of the requirements of go.mod, in their order, that are direct,
    whose lowercase form starts with no lowercase allowed domain and that
    [EqualFold] no allowed module.  A path is in the list iff some direct
    requirement with that path passes both tests; the path of a list
    entry never comes from an indirect requirement; with both allow lists
    empty the list is that of all direct requirements. *)
Theorem setBlockedModules_spec :
  (forall p : Processor,
     blockedModules (setBlockedModules p)
     = spec_computeBlockedModules (modfile.Require_ (modfile_ p))
         (Config_Allow (config p)))
  /\ (forall config logger t,
        match fst (runState (NewProcessor config logger) t) with
        | inl p =>
            blockedModules p
            = spec_computeBlockedModules (modfile.Require_ (modfile_ p))
                (Config_Allow config)
        | inr _ => True
        end)
  /\ (forall (p : Processor) (m : string),
        In m (blockedModules (setBlockedModules p)) <->
        exists r, In r (modfile.Require_ (modfile_ p))
                  /\ module.Path (modfile.Mod r) = m
                  /\ modfile.Indirect r = false
                  /\ (forall d, In d (Allow_Domains (Config_Allow (config p))) ->
                        strings.HasPrefix (ToLower m) (ToLower d) = false)
                  /\ (forall a, In a (Allow_Modules (Config_Allow (config p))) ->
                        EqualFold m a = false))
  /\ (forall p : Processor,
        Allow_Modules (Config_Allow (config p)) = [] ->
        Allow_Domains (Config_Allow (config p)) = [] ->
        blockedModules (setBlockedModules p)
        = map (fun r => module.Path (modfile.Mod r))
            (filter (fun r => negb (modfile.Indirect r))
               (modfile.Require_ (modfile_ p)))).
Proof.
  split; [exact setBlockedModules_blocked|].
  split.
  { intros config logger t. rewrite NewProcessor_run.
    destruct (snd (ReadFile goModFile)); [exact I|].
    destruct (modfileParse _ _) as [mfile|e]; [|exact I].
    now rewrite setBlockedModules_blocked. }
  split.
  { intros p m. rewrite setBlockedModules_blocked.
    unfold spec_computeBlockedModules. rewrite in_map_iff.
    split.
    - intros [r [Hpath Hin]]. apply filter_In in Hin as [Hin Hkeep].
      apply andb_true_iff in Hkeep as [Hdirect Hnot].
      apply negb_true_iff in Hdirect, Hnot.
      apply spec_allowed_false_iff in Hnot as [Hdom Hmod].
      exists r. subst m. auto.
    - intros [r (Hin & Hpath & Hdirect & Hdom & Hmod)].
      exists r. split; [assumption|]. apply filter_In. split; [assumption|].
      rewrite Hdirect. simpl. apply negb_true_iff, spec_allowed_false_iff.
      subst m. auto. }
  intros p Hmodules Hdomains. rewrite setBlockedModules_blocked.
  unfold spec_computeBlockedModules, spec_allowed.
  rewrite Hmodules, Hdomains. simpl. f_equal. apply filter_ext.
  intros r. now rewrite andb_true_r.
Qed.

End PolicyResolver.

(** ** Matching and messages *)

Section Matching.

Context {platform : Platform}.

Lemma append_empty_r (s : string) : s ++ EmptyString = s.
Proof. induction s as [|c s IH]; simpl; [reflexivity|now rewrite IH]. Qed.

Lemma isBlockedPackage_iff (p : Processor) (pkg : string) :
  isBlockedPackage p pkg = true <->
  exists b, In b (blockedModules p)
            /\ strings.HasPrefix (ToLower pkg) (ToLower b) = true.
Proof.
  unfold isBlockedPackage. rewrite isBlockedPackage_loop_existsb.
  apply existsb_exists.
Qed.

Lemma HasReplacement_iff (r : Replacement) (pkg : string) :
  HasReplacement r pkg = true <->
  exists m, In m (Modules r)
            /\ strings.HasPrefix (ToLower pkg) (ToLower m) = true.
Proof.
  unfold HasReplacement. rewrite HasReplacement_loop_existsb.
  apply existsb_exists.
Qed.

(** The message [process] builds is the one [spec_message] spells out. *)
Lemma reason_spec_message (replacements : Replacements) (pkg : string) :
  match Get replacements pkg with
  | Some replacement => blockedReason pkg ++ " " ++ Replacement_String replacement
  | None => blockedReason pkg
  end = spec_message replacements pkg.
Proof.
  unfold spec_message, blockedReason, blockedReasonPrefix, blockedReasonSuffix,
    Replacement_String.
  destruct (Get replacements pkg) as [r|]; simpl.
  - reflexivity.
  - now rewrite append_empty_r.
Qed.

(** Appending a diagnostic changes neither the blocked list nor the
    configuration, so the tests of later imports see the same policy. *)
Lemma process_loop_result (fileSet : token.FileSet) (imports : list ast.ImportSpec) :
  forall p,
    process_loop p fileSet imports
    = set_result p (result p ++ importResults p fileSet imports)%list.
Proof.
  unfold importResults.
  induction imports as [|imp rest IH]; intros p; simpl.
  - rewrite app_nil_r. now destruct p.
  - fold (importPath imp).
    change (isBlockedPackage_loop (blockedModules p) (importPath imp))
      with (isBlockedPackage p (importPath imp)).
    destruct (isBlockedPackage p (importPath imp)) eqn:Hblocked.
    + rewrite IH, reason_spec_message. unfold addError, set_result. simpl.
      rewrite <- app_assoc. reflexivity.
    + apply IH.
Qed.

(** X19: [isBlockedPackage] answers true for a string iff the lowercase
    of the whole string starts with the lowercase of a whole blocked
    entry; with one blocked entry the test is that single prefix test.
    [process] appends a diagnostic for an import exactly when this test
    holds of the import literal with its double quotes trimmed.  No path
    segment is looked at: the entry github.com/evil/pkg matches
    github.com/evil/pkg/sub and github.com/evil/pkgextra alike, in any
    letter case, and does not match the shorter github.com/evil/pk. *)
Theorem isBlockedPackage_prefix :
  (forall (p : Processor) (pkg : string),
     isBlockedPackage p pkg = true <->
     exists b, In b (blockedModules p)
               /\ strings.HasPrefix (ToLower pkg) (ToLower b) = true)
  /\ (forall (p : Processor) (b pkg : string),
        blockedModules p = [b] ->
        isBlockedPackage p pkg = strings.HasPrefix (ToLower pkg) (ToLower b))
  /\ (forall (p : Processor) (fileSet : token.FileSet) (imp : ast.ImportSpec),
        result (process_loop p fileSet [imp])
        = if isBlockedPackage p (importPath imp)
          then (result p ++ [importResult p fileSet imp])%list
          else result p)
  /\ (forall p : Processor,
        blockedModules p = ["github.com/evil/pkg"] ->
        isBlockedPackage p "github.com/evil/pkg/sub" = true
        /\ isBlockedPackage p "github.com/evil/pkgextra" = true
        /\ isBlockedPackage p "GitHub.com/Evil/PKG/Sub" = true
        /\ isBlockedPackage p "github.com/evil/pk" = false).
Proof.
  split; [exact isBlockedPackage_iff|].
  split.
  { intros p b pkg Hb. unfold isBlockedPackage. rewrite Hb. simpl.
    now destruct (strings.HasPrefix _ _). }
  split.
  { intros p fileSet imp. rewrite process_loop_result.
    unfold importResults. simpl.
    destruct (isBlockedPackage p (importPath imp)); simpl;
      [reflexivity|apply app_nil_r]. }
  intros p Hb. unfold isBlockedPackage. rewrite Hb.
  repeat split; reflexivity.
Qed.

(** C7: [Get] returns the first rule of the table, in table order, that
    has a trigger prefix of which the lowercase is a prefix of the
    lowercase package path: every rule before the one returned fails the
    test, whatever the rules after it do; it returns nothing iff no rule
    of the table passes the test. *)
Theorem Replacements_Get_first_match :
  (forall (r : Replacement) (pkg : string),
     HasReplacement r pkg = true <->
     exists m, In m (Modules r)
               /\ strings.HasPrefix (ToLower pkg) (ToLower m) = true)
  /\ (forall (rs : Replacements) (pkg : string) (r : Replacement),
        Get rs pkg = Some r <->
        exists before after,
          rs = (before ++ r :: after)%list
          /\ HasReplacement r pkg = true
          /\ forall r', In r' before -> HasReplacement r' pkg = false)
  /\ (forall (rs : Replacements) (pkg : string),
        Get rs pkg = None <->
        forall r, In r rs -> HasReplacement r pkg = false).
Proof.
  split; [exact HasReplacement_iff|].
  split.
  - intros rs pkg r. split.
    + induction rs as [|r0 rest IH]; simpl; [discriminate|].
      destruct (HasReplacement r0 pkg) eqn:H0.
      * intros [= <-]. exists [], rest. simpl. repeat split; auto.
        intros r' [].
      * intros Hget. destruct (IH Hget) as (before & after & -> & Hr & Hbefore).
        exists (r0 :: before), after. simpl. repeat split; auto.
        intros r' [<-|Hin]; auto.
    + intros (before & after & -> & Hr & Hbefore).
      induction before as [|r0 before IH]; simpl.
      * now rewrite Hr.
      * rewrite (Hbefore r0 (or_introl eq_refl)).
        apply IH. intros r' Hin. apply Hbefore. now right.
  - intros rs pkg. induction rs as [|r0 rest IH]; simpl.
    + split; [intros _ r []|reflexivity].
    + destruct (HasReplacement r0 pkg) eqn:H0.
      * split; [discriminate|]. intros H. specialize (H r0 (or_introl eq_refl)).
        congruence.
      * rewrite IH. split.
        -- intros H r [<-|Hin]; auto.
        -- intros H r Hin. apply H. now right.
Qed.

End Matching.

(** ** Running the scanner *)

Section Scanner.

Context {platform : Platform}.

Lemma set_result_same (p : Processor) : set_result p (result p) = p.
Proof. now destruct p. Qed.

(** The diagnostics of a file depend on the processor through its blocked
    list and its configuration only. *)
Lemma fileResults_set_result (p : Processor) (r : list Result) (filename : string) :
  fileResults (set_result p r) filename = fileResults p filename.
Proof. reflexivity. Qed.

Lemma process_run (p : Processor) (filename data : string) (t : Trace) :
  runState (process p filename data) t
  = (match ParseFile filename data with
     | (fileSet, file, Some e) =>
         set_result p (result p ++ [parseErrorResult filename e])%list
     | (fileSet, file, None) => process_loop p fileSet (ast.Imports file)
     end,
     (t ++ [EvParseFile filename data])%list).
Proof.
  unfold process, parser_ParseFile, emit. simpl.
  destruct (ParseFile filename data) as [[fileSet file] [e|]]; reflexivity.
Qed.

Lemma ProcessFiles_loop_run (filenames : list string) :
  forall (p : Processor) (t : Trace),
    runState (ProcessFiles_loop p filenames) t
    = (set_result p (result p ++ flat_map (fileResults p) filenames)%list,
       (t ++ flat_map fileEvents filenames)%list).
Proof.
  induction filenames as [|filename rest IH]; intros p t.
  - simpl. now rewrite !app_nil_r, set_result_same.
  - cbn [ProcessFiles_loop]. unfold ioutil_ReadFile, emit.
    cbn [runState bind ret Monad_state modify MonadState_state get put fst snd].
    destruct (ReadFile filename) as [data err] eqn:Hread.
    cbn [runState]. rewrite process_run, IH.
    cbn [flat_map]. unfold fileResults at 2, fileEvents at 2, readResults, parseResults.
    rewrite Hread. cbn [fst snd].
    destruct (ParseFile filename data) as [[fileSet file] perr].
    rewrite <- !app_assoc. cbn [app].
    f_equal.
    destruct err as [e|], perr as [e'|]; rewrite ?process_loop_result;
      unfold set_result; cbn [result config logger modfile_ blockedModules];
      rewrite <- ?app_assoc; reflexivity.
Qed.

(** One call of [ProcessFiles]: the processor after it, the slice it
    returns and the trace it leaves. *)
Lemma ProcessFiles_run (p : Processor) (filenames : list string) (t : Trace) :
  runState (ProcessFiles p filenames) t
  = ((set_result p (result p ++ produced p filenames)%list,
      (result p ++ produced p filenames)%list),
     (t ++ EvPrintf (logger p) "info: go.mod file has '%d' blocked module(s), %+v"
             [OInt (Z.of_nat (List.length (blockedModules p)));
              OStrings (blockedModules p)]
          :: match blockedModules p with
             | [] => []
             | _ :: _ => flat_map fileEvents filenames
             end)%list).
Proof.
  unfold ProcessFiles, Printf, emit, produced.
  cbn [runState bind ret Monad_state modify MonadState_state get put fst snd].
  destruct (blockedModules p) as [|b bs] eqn:Hblocked; cbn [List.length Nat.eqb].
  - cbn [runState ret Monad_state]. now rewrite app_nil_r, set_result_same.
  - cbn [runState bind ret Monad_state]. rewrite ProcessFiles_loop_run.
    cbn [result set_result]. rewrite <- app_assoc. reflexivity.
Qed.




(** A processor that blocks nothing has reported nothing. *)
Lemma Reachable_nothing_blocked (p : Processor) :
  Reachable p -> blockedModules p = [] -> result p = [].
Proof.
  induction 1 as [config logger t p Hnew|p filenames t Hp IH].
  - rewrite NewProcessor_run in Hnew.
    destruct (snd (ReadFile goModFile)); [discriminate|].
    destruct (modfileParse _ _); [|discriminate].
    injection Hnew as <-. reflexivity.
  - rewrite ProcessFiles_run. cbn [fst result set_result blockedModules].
    intros Hblocked. unfold produced. rewrite Hblocked, (IH Hblocked). reflexivity.
Qed.

(** C3: on a processor whose blocked list is empty, [ProcessFiles] returns
    the empty list and leaves the processor as it was, for every list of
    file names; the only outside call it makes is the [Printf] of its
    first line, so no file is read and none is parsed. *)
Theorem ProcessFiles_nothing_blocked
    (p : Processor) (filenames : list string) (t : Trace) :
  Reachable p ->
  blockedModules p = [] ->
  runState (ProcessFiles p filenames) t
  = ((p, []),
     (t ++ [EvPrintf (logger p) "info: go.mod file has '%d' blocked module(s), %+v"
              [OInt 0; OStrings []]])%list).
Proof.
  intros Hreach Hblocked. rewrite ProcessFiles_run. unfold produced.
  rewrite Hblocked, (Reachable_nothing_blocked p Hreach Hblocked).
  cbn [app List.length Z.of_nat].
  change (set_result p []) with (set_result p (@nil Result)).
  rewrite <- (Reachable_nothing_blocked p Hreach Hblocked) at 1.
  now rewrite set_result_same.
Qed.

(** C6: the accumulator is created empty once, by
    [NewProcessor], and no call resets it: a call of [ProcessFiles]
    returns, and leaves in the processor, the accumulator as it stood
    before the call followed by the diagnostics produced during the call.
    So the first call on a new processor returns its own diagnostics
    only, and a second call returns those of the first call followed by
    its own. *)
Theorem ProcessFiles_accumulates :
  (forall config logger t,
     match fst (runState (NewProcessor config logger) t) with
     | inl p => result p = []
     | inr _ => True
     end)
  /\ (forall (p : Processor) (filenames : list string) (t : Trace),
        snd (fst (runState (ProcessFiles p filenames) t))
        = (result p ++ produced p filenames)%list
        /\ result (fst (fst (runState (ProcessFiles p filenames) t)))
           = (result p ++ produced p filenames)%list)
  /\ (forall (p : Processor) (first second : list string) (t t' : Trace),
        result p = [] ->
        snd (fst (runState (ProcessFiles p first) t)) = produced p first
        /\ snd (fst (runState
                       (ProcessFiles (fst (fst (runState (ProcessFiles p first) t)))
                          second) t'))
           = (produced p first ++ produced p second)%list).
Proof.
  split.
  { intros config logger t. rewrite NewProcessor_run.
    destruct (snd (ReadFile goModFile)); [exact I|].
    now destruct (modfileParse _ _). }
  split.
  { intros p filenames t. now rewrite ProcessFiles_run. }
  intros p first second t t' Hempty.
  rewrite !ProcessFiles_run. cbn [fst snd result set_result].
  rewrite Hempty. split; reflexivity.
Qed.

(** C9: the slice returned holds, after what the accumulator held, the
    diagnostics of the submitted files file by file in submission order:
    those of every file before a given one, then those of that file, then
    those of every file after it.  Within a file that parses, after the
    read diagnostic if any, come the diagnostics of its blocked imports,
    one per blocked import, in the order of [file.Imports]: those of the
    imports declared before a given import come before those of the
    imports declared from it on. *)
Theorem ProcessFiles_order :
  (forall (p : Processor) (before after : list string) (filename : string) (t : Trace),
     snd (fst (runState (ProcessFiles p (before ++ filename :: after)) t))
     = match blockedModules p with
       | [] => result p
       | _ :: _ =>
           (result p ++ flat_map (fileResults p) before
            ++ fileResults p filename ++ flat_map (fileResults p) after)%list
       end)
  /\ (forall (p : Processor) (filename : string),
        fileResults p filename
        = (readResults filename
           ++ match ParseFile filename (fst (ReadFile filename)) with
              | (fileSet, file, Some e) => [parseErrorResult filename e]
              | (fileSet, file, None) =>
                  map (importResult p fileSet)
                    (filter (fun imp => isBlockedPackage p (importPath imp))
                       (ast.Imports file))
              end)%list)
  /\ (forall (p : Processor) (fileSet : token.FileSet)
             (earlier later : list ast.ImportSpec),
        result (process_loop p fileSet (earlier ++ later))
        = (result p
           ++ map (importResult p fileSet)
                (filter (fun imp => isBlockedPackage p (importPath imp)) earlier)
           ++ map (importResult p fileSet)
                (filter (fun imp => isBlockedPackage p (importPath imp)) later))%list).
Proof.
  split.
  { intros p before after filename t. rewrite ProcessFiles_run. cbn [fst snd].
    unfold produced. destruct (blockedModules p); [apply app_nil_r|].
    rewrite flat_map_app. reflexivity. }
  split.
  { intros p filename. unfold fileResults, parseResults, importResults.
    now destruct (ParseFile _ _) as [[fileSet file] [e|]]. }
  intros p fileSet earlier later. rewrite process_loop_result.
  cbn [result set_result]. unfold importResults.
  now rewrite filter_app, map_app.
Qed.

(** C10: [ProcessFiles] assigns to the accumulator only: the
    configuration, the logger, the parsed go.mod and the blocked list of
    the processor are after the call what they were before it, so every
    later test of a package against the blocked list, and every later
    lookup of a replacement, answers as before.  The same holds of
    [process] and of [addError], through which it writes. *)
Theorem ProcessFiles_frame :
  (forall (p : Processor) (filenames : list string) (t : Trace),
     let p' := fst (fst (runState (ProcessFiles p filenames) t)) in
     config p' = config p
     /\ logger p' = logger p
     /\ modfile_ p' = modfile_ p
     /\ blockedModules p' = blockedModules p
     /\ (forall pkg, isBlockedPackage p' pkg = isBlockedPackage p pkg)
     /\ (forall pkg, Get (Config_Replacements (config p')) pkg
                     = Get (Config_Replacements (config p)) pkg))
  /\ (forall (p : Processor) (filename data : string) (t : Trace),
        let p' := fst (runState (process p filename data) t) in
        p' = set_result p (result p'))
  /\ (forall (p : Processor) (fileset : token.FileSet) (pos : token.Pos)
             (reason : string),
        let p' := addError p fileset pos reason in
        p' = set_result p (result p')).
Proof.
  split.
  { intros p filenames t p'. subst p'. rewrite ProcessFiles_run.
    cbn [fst]. repeat split; reflexivity. }
  split.
  { intros p filename data t p'. subst p'. rewrite process_run. cbn [fst].
    destruct (ParseFile filename data) as [[fileSet file] [e|]];
      [reflexivity|].
    now rewrite process_loop_result. }
  intros p fileset pos reason p'. reflexivity.
Qed.

(** A file that cannot be read is parsed all the same, on the bytes the
    read returned: when that parse fails too, the file has two
    diagnostics. *)
Lemma fileResults_read_and_parse_failure
    (p : Processor) (filename data : string) (e e' : error)
    (fileSet : token.FileSet) (file : ast.File) :
  ReadFile filename = (data, Some e) ->
  ParseFile filename data = (fileSet, file, Some e') ->
  fileResults p filename
  = [readErrorResult filename e; parseErrorResult filename e'].
Proof.
  intros Hread Hparse. unfold fileResults, readResults, parseResults.
  rewrite Hread. cbn [fst snd]. now rewrite Hparse.
Qed.

(** C8: when the parse of a submitted file fails, the file contributes to
    the slice returned, after its read diagnostic if the read failed
    too, one diagnostic with the file's name, line 0 and the parse
    error in its message, and none for the imports of the partial syntax
    tree; the diagnostics of the files after it follow, and every
    submitted file is read and parsed, in order. *)
Theorem ProcessFiles_parse_failure
    (p : Processor) (before after : list string) (filename : string) (t : Trace)
    (fileSet : token.FileSet) (file : ast.File) (e : error) :
  blockedModules p <> [] ->
  ParseFile filename (fst (ReadFile filename)) = (fileSet, file, Some e) ->
  snd (fst (runState (ProcessFiles p (before ++ filename :: after)) t))
  = (result p ++ flat_map (fileResults p) before
     ++ (readResults filename
         ++ [mkResult filename 0 token.zero
               ("invalid syntax, file cannot be linted (" ++ e ++ ")")])
     ++ flat_map (fileResults p) after)%list
  /\ (snd (ReadFile filename) = None ->
      fileResults p filename
      = [mkResult filename 0 token.zero
           ("invalid syntax, file cannot be linted (" ++ e ++ ")")])
  /\ result (fst (runState (process p filename (fst (ReadFile filename))) t))
     = (result p
        ++ [mkResult filename 0 token.zero
              ("invalid syntax, file cannot be linted (" ++ e ++ ")")])%list
  /\ snd (runState (ProcessFiles p (before ++ filename :: after)) t)
     = (t ++ EvPrintf (logger p) "info: go.mod file has '%d' blocked module(s), %+v"
               [OInt (Z.of_nat (List.length (blockedModules p)));
                OStrings (blockedModules p)]
          :: flat_map fileEvents before
          ++ fileEvents filename ++ flat_map fileEvents after)%list.
Proof.
  intros Hblocked Hparse.
  assert (Hfile : fileResults p filename
                  = (readResults filename ++ [parseErrorResult filename e])%list).
  { unfold fileResults, parseResults. now rewrite Hparse. }
  rewrite !ProcessFiles_run, process_run, Hparse. cbn [fst snd result set_result].
  unfold produced. destruct (blockedModules p) as [|b bs]; [contradiction|].
  rewrite !flat_map_app. cbn [flat_map]. rewrite Hfile.
  repeat split.
  intros Hread. unfold readResults. now rewrite Hread.
Qed.

End Scanner.

(** ** The example project, run *)

Section Examples.

#[local] Existing Instance Example.platform.

(** The string functions on ASCII input, whatever the Unicode tables. *)
Example ToLower_ascii :
  ToLower "GitHub.com/Evil/PKG_v2@[`{" = "github.com/evil/pkg_v2@[`{".
Proof. reflexivity. Qed.

Example EqualFold_ascii :
  EqualFold "GitHub.com/Evil" "github.COM/evil" = true
  /\ EqualFold "github.com/evil" "github.com/evil/" = false
  /\ EqualFold "a@" "a`" = false.
Proof. repeat split. Qed.

Example Trim_import_literal :
  strings.Trim (Example.quoted "fmt") dquote = "fmt"
  /\ strings.Trim "`fmt`" dquote = "`fmt`".
Proof. split; reflexivity. Qed.

(** The second rule of the example table matches too; the first wins. *)
Example Get_first_of_two :
  Get Example.replacements "github.com/evil/pkg/sub"
  = Some (mkReplacement ["github.com/evil/pkg"] "github.com/good/pkg" "unmaintained")
  /\ HasReplacement
       (mkReplacement ["github.com/evil"] "github.com/fine/pkg" "second choice")
       "github.com/evil/pkg/sub" = true
  /\ Get Example.replacements "github.com/other" = None.
Proof. repeat split. Qed.

(** [NewProcessor] on the example project builds [Example.processor]. *)
Lemma Example_processor_Reachable : Reachable Example.processor.
Proof.
  apply (Reachable_New Example.configuration (LoggerRef 0) []). reflexivity.
Qed.

Lemma Example_processorAll_Reachable : Reachable Example.processorAll.
Proof.
  apply (Reachable_New Example.configurationAll (LoggerRef 0) []). reflexivity.
Qed.

(** With every direct dependency allowed, a scan of two files, one of
    them missing, returns nothing and reads nothing. *)
Lemma ProcessFiles_nothing_blocked_witness :
  Reachable Example.processorAll
  /\ blockedModules Example.processorAll = []
  /\ runState (ProcessFiles Example.processorAll ["main.go"; "missing.go"]) []
     = ((Example.processorAll, []),
        [EvPrintf (LoggerRef 0) "info: go.mod file has '%d' blocked module(s), %+v"
           [OInt 0; OStrings []]]).
Proof.
  split; [exact Example_processorAll_Reachable|].
  split; [reflexivity|].
  apply (ProcessFiles_nothing_blocked Example.processorAll ["main.go"; "missing.go"] []).
  - exact Example_processorAll_Reachable.
  - reflexivity.
Defined.

(** broken.go parses to a partial tree that holds a blocked import, and to
    an error: the scan reports the error alone, between the diagnostics
    of the files before and after it. *)
Lemma ProcessFiles_parse_failure_witness :
  blockedModules Example.processor <> []
  /\ snd (fst (runState
                 (ProcessFiles Example.processor ["main.go"; "broken.go"; "main.go"]) []))
     = [Example.mainResult;
        mkResult "broken.go" 0 token.zero
          "invalid syntax, file cannot be linted (broken.go:1:34: expected 'IDENT', found '{')";
        Example.mainResult].
Proof.
  split; [discriminate|].
  refine (proj1 (ProcessFiles_parse_failure Example.processor ["main.go"] ["main.go"]
                   "broken.go" [] (Example.fileSetOf "broken.go")
                   (ast.mkFile
                      [ast.mkImportSpec (Example.quoted "github.com/evil/pkg") 24%Z])
                   "broken.go:1:34: expected 'IDENT', found '{'" _ _)).
  - discriminate.
  - reflexivity.
Defined.

(** C4: missing.go cannot be read.  The scan reports the read error,
    then parses the empty bytes the read returned and reports a syntax
    error for the same file: two diagnostics for missing.go, both at line
    0, before the one of main.go. *)
Theorem ProcessFiles_read_failure_example :
  snd (fst (runState (ProcessFiles Example.processor ["missing.go"; "main.go"]) []))
  = [mkResult "missing.go" 0 token.zero
       "unable to read file, file cannot be linted (open missing.go: no such file or directory)";
     mkResult "missing.go" 0 token.zero
       "invalid syntax, file cannot be linted (missing.go:1:1: expected 'package', found 'EOF')";
     Example.mainResult]
  /\ snd (runState (ProcessFiles Example.processor ["missing.go"; "main.go"]) [])
     = [EvPrintf (LoggerRef 0) "info: go.mod file has '%d' blocked module(s), %+v"
          [OInt 1; OStrings ["github.com/evil/pkg"]];
        EvReadFile "missing.go"; EvParseFile "missing.go" EmptyString;
        EvReadFile "main.go"; EvParseFile "main.go" "package main; import (...)"].
Proof. split; reflexivity. Qed.


(** After a scan of main.go, a second scan of no file at all returns the
    diagnostic of the first scan, though it produced none. *)
Lemma ProcessFiles_carries_over_counterexample :
  Reachable (fst (fst (runState (ProcessFiles Example.processor ["main.go"]) [])))
  /\ snd (fst (runState (ProcessFiles Example.processor ["main.go"]) [])) = [Example.mainResult]
  /\ produced (fst (fst (runState (ProcessFiles Example.processor ["main.go"]) []))) [] = []
  /\ snd (fst (runState
                 (ProcessFiles
                    (fst (fst (runState (ProcessFiles Example.processor ["main.go"]) [])))
                    []) []))
     = [Example.mainResult]
  /\ snd (fst (runState
                 (ProcessFiles
                    (fst (fst (runState (ProcessFiles Example.processor ["main.go"]) [])))
                    []) []))
     <> produced (fst (fst (runState (ProcessFiles Example.processor ["main.go"]) []))) [].
Proof.
  split.
  { apply Reachable_ProcessFiles, Example_processor_Reachable. }
  split; [reflexivity|]. split; [reflexivity|]. split; [reflexivity|].
  vm_compute. discriminate.
Qed.

End Examples.

(** ** Facts on bytes and strings *)

Section Bytes.

Lemma all_bool_spec (f : bool -> bool) :
  all_bool f = true -> forall b, f b = true.
Proof.
  unfold all_bool. intros H b. apply andb_true_iff in H as [Ht Hf].
  now destruct b.
Qed.

Lemma all_ascii_spec (f : ascii -> bool) :
  all_ascii f = true -> forall c, f c = true.
Proof.
  unfold all_ascii. intros H [b0 b1 b2 b3 b4 b5 b6 b7].
  pose proof (all_bool_spec _ H b0) as H0. cbv beta in H0.
  pose proof (all_bool_spec _ H0 b1) as H1. cbv beta in H1.
  pose proof (all_bool_spec _ H1 b2) as H2. cbv beta in H2.
  pose proof (all_bool_spec _ H2 b3) as H3. cbv beta in H3.
  pose proof (all_bool_spec _ H3 b4) as H4. cbv beta in H4.
  pose proof (all_bool_spec _ H4 b5) as H5. cbv beta in H5.
  pose proof (all_bool_spec _ H5 b6) as H6. cbv beta in H6.
  exact (all_bool_spec _ H6 b7).
Qed.

Lemma lowerByte_idempotent (c : ascii) :
  strings.lowerByte (strings.lowerByte c) = strings.lowerByte c.
Proof.
  apply Ascii.eqb_eq. revert c. apply all_ascii_spec. vm_compute. reflexivity.
Qed.

Lemma lowerByte_isASCII (c : ascii) :
  isASCIIByte c = true -> isASCIIByte (strings.lowerByte c) = true.
Proof.
  intros H.
  assert (Hall : forall c, implb (isASCIIByte c) (isASCIIByte (strings.lowerByte c)) = true).
  { apply all_ascii_spec. vm_compute. reflexivity. }
  specialize (Hall c). rewrite H in Hall. exact Hall.
Qed.

(** A byte is lowered to a backquote only if it is one. *)
Lemma lowerByte_backquote (c : ascii) :
  strings.lowerByte c = "`"%char -> c = "`"%char.
Proof.
  intros H. apply Ascii.eqb_eq.
  assert (Hall : forall c, implb (Ascii.eqb (strings.lowerByte c) "`"%char)
                             (Ascii.eqb c "`"%char) = true).
  { apply all_ascii_spec. vm_compute. reflexivity. }
  specialize (Hall c). rewrite H in Hall. exact Hall.
Qed.

(** On two ASCII bytes the three tests of the fast path of [EqualFold]
    amount to the equality of the lowered bytes. *)
Lemma foldByte_lowerByte (a b : ascii) :
  isASCIIByte a = true -> isASCIIByte b = true ->
  (if Ascii.eqb a b then true
   else if strings.isUpper a && Ascii.eqb b (strings.lowerByte a) then true
   else if strings.isUpper b && Ascii.eqb a (strings.lowerByte b) then true
   else false)
  = Ascii.eqb (strings.lowerByte a) (strings.lowerByte b).
Proof.
  intros Ha Hb.
  assert (Hall : forall a b,
            implb (isASCIIByte a && isASCIIByte b)
              (Bool.eqb
                 (if Ascii.eqb a b then true
                  else if strings.isUpper a && Ascii.eqb b (strings.lowerByte a) then true
                  else if strings.isUpper b && Ascii.eqb a (strings.lowerByte b) then true
                  else false)
                 (Ascii.eqb (strings.lowerByte a) (strings.lowerByte b))) = true).
  { intros a'. apply all_ascii_spec. revert a'. apply all_ascii_spec.
    vm_compute. reflexivity. }
  specialize (Hall a b). rewrite Ha, Hb in Hall. simpl in Hall.
  now apply Bool.eqb_prop.
Qed.

Lemma mapBytes_app (f : ascii -> ascii) (a b : string) :
  strings.mapBytes f (a ++ b) = strings.mapBytes f a ++ strings.mapBytes f b.
Proof. induction a as [|c a IH]; simpl; [reflexivity|now rewrite IH]. Qed.

Lemma isASCII_app (a b : string) :
  strings.isASCII (a ++ b) = strings.isASCII a && strings.isASCII b.
Proof.
  induction a as [|c a IH]; simpl; [reflexivity|].
  now rewrite IH, andb_assoc.
Qed.

Lemma isASCII_mapBytes_lowerByte (s : string) :
  strings.isASCII s = true ->
  strings.isASCII (strings.mapBytes strings.lowerByte s) = true.
Proof.
  induction s as [|c s IH]; simpl; [reflexivity|].
  intros H. apply andb_true_iff in H as [Hc Hs].
  apply andb_true_iff. split; [now apply lowerByte_isASCII|auto].
Qed.

Lemma mapBytes_lowerByte_idempotent (s : string) :
  strings.mapBytes strings.lowerByte (strings.mapBytes strings.lowerByte s)
  = strings.mapBytes strings.lowerByte s.
Proof.
  induction s as [|c s IH]; simpl; [reflexivity|].
  now rewrite lowerByte_idempotent, IH.
Qed.

Lemma HasPrefix_empty (s : string) : strings.HasPrefix s EmptyString = true.
Proof. now destruct s. Qed.

Lemma HasPrefix_app (a b : string) : strings.HasPrefix (a ++ b) a = true.
Proof.
  induction a as [|c a IH]; simpl; [apply HasPrefix_empty|].
  now rewrite Ascii.eqb_refl.
Qed.

Lemma append_length (a b : string) :
  String.length (a ++ b) = (String.length a + String.length b)%nat.
Proof. induction a as [|c a IH]; simpl; [reflexivity|now rewrite IH]. Qed.

Lemma append_cancel_l (a b c : string) : a ++ b = a ++ c -> b = c.
Proof. induction a as [|x a IH]; simpl; [auto|]. intros [= H]. auto. Qed.

Lemma append_cancel_r (c : string) : forall a b : string, a ++ c = b ++ c -> a = b.
Proof.
  induction a as [|x a IH]; intros [|y b] H; simpl in H.
  - reflexivity.
  - apply (f_equal String.length) in H. simpl in H. rewrite append_length in H. lia.
  - apply (f_equal String.length) in H. simpl in H. rewrite append_length in H. lia.
  - injection H as -> H. f_equal. now apply IH.
Qed.

(** Trimming leaves alone a string whose last byte is not the cutset
    byte, at its right end. *)
Lemma trimRightByte_last (c a : ascii) (s : string) :
  a <> c ->
  strings.trimRightByte (s ++ String a EmptyString) c = s ++ String a EmptyString.
Proof.
  intros Hne. induction s as [|x s IH]; simpl.
  - apply Ascii.eqb_neq in Hne. now rewrite Hne.
  - rewrite IH. now destruct s.
Qed.

End Bytes.

(** ** Letter case on ASCII strings *)

Section CaseFolding.

Context {platform : Platform}.

Lemma ToLower_isASCII (s : string) :
  strings.isASCII s = true -> ToLower s = strings.mapBytes strings.lowerByte s.
Proof. unfold ToLower, strings.ToLower. now intros ->. Qed.

Lemma ToLower_empty : ToLower EmptyString = EmptyString.
Proof. reflexivity. Qed.

Lemma ToLower_idempotent_ascii (s : string) :
  strings.isASCII s = true -> ToLower (ToLower s) = ToLower s.
Proof.
  intros H. rewrite (ToLower_isASCII s H).
  rewrite ToLower_isASCII by now apply isASCII_mapBytes_lowerByte.
  apply mapBytes_lowerByte_idempotent.
Qed.

Lemma ToLower_app_ascii (a b : string) :
  strings.isASCII a = true -> strings.isASCII b = true ->
  ToLower (a ++ b) = ToLower a ++ ToLower b.
Proof.
  intros Ha Hb. rewrite !ToLower_isASCII; auto.
  - apply mapBytes_app.
  - now rewrite isASCII_app, Ha, Hb.
Qed.

(** On ASCII strings [EqualFold] is the equality of the lowered strings. *)
Lemma EqualFold_isASCII (s : string) :
  forall t,
    strings.isASCII s = true -> strings.isASCII t = true ->
    EqualFold s t = String.eqb (ToLower s) (ToLower t).
Proof.
  induction s as [|a s IH]; intros [|b t] Hs Ht;
    rewrite !ToLower_isASCII by assumption; try reflexivity.
  simpl in Hs, Ht.
  apply andb_true_iff in Hs as [Ha Hs]. apply andb_true_iff in Ht as [Hb Ht].
  unfold EqualFold in *. cbn [strings.EqualFold strings.mapBytes String.eqb].
  rewrite Ha, Hb. cbn [andb].
  rewrite <- (foldByte_lowerByte a b Ha Hb).
  specialize (IH t Hs Ht). rewrite !ToLower_isASCII in IH by assumption.
  destruct (Ascii.eqb a b); [exact IH|].
  destruct (strings.isUpper a && Ascii.eqb b (strings.lowerByte a)); [exact IH|].
  destruct (strings.isUpper b && Ascii.eqb a (strings.lowerByte b)); [exact IH|].
  reflexivity.
Qed.

Lemma EqualFold_refl_ascii (s : string) :
  strings.isASCII s = true -> EqualFold s s = true.
Proof. intros H. rewrite EqualFold_isASCII by assumption. apply String.eqb_refl. Qed.

End CaseFolding.

(** ** More on the policy resolver *)

Section PolicyFacts.

Context {platform : Platform}.

Lemma filter_none {A : Type} (f : A -> bool) (l : list A) :
  (forall x, In x l -> f x = false) -> filter f l = [].
Proof.
  induction l as [|a l IH]; simpl; [reflexivity|].
  intros H. rewrite (H a (or_introl eq_refl)). apply IH. intros x Hx. apply H. now right.
Qed.

Lemma filter_length_bound {A : Type} (f : A -> bool) (l : list A) :
  (List.length (filter f l) <= List.length l)%nat.
Proof.
  induction l as [|a l IH]; simpl; [lia|]. destruct (f a); simpl; lia.
Qed.

Lemma spec_allowed_true_iff (allow : Allow) (m : string) :
  spec_allowed allow m = true <->
  (exists d, In d (Allow_Domains allow)
             /\ strings.HasPrefix (ToLower m) (ToLower d) = true)
  \/ (exists a, In a (Allow_Modules allow) /\ EqualFold m a = true).
Proof. unfold spec_allowed. now rewrite orb_true_iff, !existsb_exists. Qed.

Lemma spec_allowed_incl (allow allow' : Allow) (m : string) :
  incl (Allow_Domains allow) (Allow_Domains allow') ->
  incl (Allow_Modules allow) (Allow_Modules allow') ->
  spec_allowed allow m = true -> spec_allowed allow' m = true.
Proof.
  intros Hd Hm H. apply spec_allowed_true_iff in H. apply spec_allowed_true_iff.
  destruct H as [[d [Hin Hp]]|[a [Hin He]]]; [left; exists d|right; exists a]; auto.
Qed.

(** X1: an empty string among the allowed domains is a prefix of every
    path: every module passes [isAllowedModuleDomain] and the blocked
    list comes out empty. *)
Theorem empty_domain_allows_everything (p : Processor) :
  In EmptyString (Allow_Domains (Config_Allow (config p))) ->
  (forall m, isAllowedModuleDomain p m = true)
  /\ blockedModules (setBlockedModules p) = [].
Proof.
  intros Hin.
  assert (Hall : forall m, spec_allowed (Config_Allow (config p)) m = true).
  { intros m. apply spec_allowed_true_iff. left. exists EmptyString.
    split; [assumption|]. rewrite ToLower_empty. apply HasPrefix_empty. }
  split.
  - intros m. unfold isAllowedModuleDomain.
    rewrite isAllowedModuleDomain_loop_existsb. apply existsb_exists.
    exists EmptyString. split; [assumption|].
    rewrite ToLower_empty. apply HasPrefix_empty.
  - rewrite setBlockedModules_blocked. unfold spec_computeBlockedModules.
    rewrite filter_none; [reflexivity|].
    intros r _. rewrite Hall. apply andb_false_r.
Qed.

(** X2: the allow lists act as sets, and allowing more never blocks
    more: with the same go.mod, if every allowed domain and module of one
    configuration is allowed by another, every module the second blocks
    is blocked by the first; if the lists have the same members the two
    blocked lists are equal. *)
Theorem allow_lists_monotone (p p' : Processor) :
  modfile_ p' = modfile_ p ->
  incl (Allow_Domains (Config_Allow (config p))) (Allow_Domains (Config_Allow (config p'))) ->
  incl (Allow_Modules (Config_Allow (config p))) (Allow_Modules (Config_Allow (config p'))) ->
  incl (blockedModules (setBlockedModules p')) (blockedModules (setBlockedModules p))
  /\ (incl (Allow_Domains (Config_Allow (config p')))
        (Allow_Domains (Config_Allow (config p))) ->
      incl (Allow_Modules (Config_Allow (config p')))
        (Allow_Modules (Config_Allow (config p))) ->
      blockedModules (setBlockedModules p') = blockedModules (setBlockedModules p)).
Proof.
  intros Hmod Hd Hm. rewrite !setBlockedModules_blocked, Hmod.
  unfold spec_computeBlockedModules. split.
  - intros m Hin. apply in_map_iff in Hin as [r [Hpath Hin]].
    apply filter_In in Hin as [Hin Hkeep].
    apply andb_true_iff in Hkeep as [Hdirect Hnot].
    apply in_map_iff. exists r. split; [assumption|].
    apply filter_In. split; [assumption|]. rewrite Hdirect. simpl.
    apply negb_true_iff in Hnot. apply negb_true_iff.
    destruct (spec_allowed (Config_Allow (config p)) _) eqn:Hallowed; [|reflexivity].
    apply (spec_allowed_incl _ _ _ Hd Hm) in Hallowed. congruence.
  - intros Hd' Hm'. f_equal. apply filter_ext. intros r. f_equal. f_equal.
    destruct (spec_allowed (Config_Allow (config p)) _) eqn:H1.
    + now apply (spec_allowed_incl _ _ _ Hd Hm).
    + destruct (spec_allowed (Config_Allow (config p')) _) eqn:H2; [|reflexivity].
      apply (spec_allowed_incl _ _ _ Hd' Hm') in H2. congruence.
Qed.

(** X3: the blocked list never outgrows the capacity the code allocates
    for it, the number of requirements of go.mod; it is at most as long
    as the list of the direct requirements. *)
Theorem setBlockedModules_capacity (p : Processor) :
  (List.length (blockedModules (setBlockedModules p))
   <= List.length (filter (fun r => negb (modfile.Indirect r))
                     (modfile.Require_ (modfile_ p))))%nat
  /\ (List.length (filter (fun r => negb (modfile.Indirect r))
                     (modfile.Require_ (modfile_ p)))
      <= List.length (modfile.Require_ (modfile_ p)))%nat.
Proof.
  split; [|apply filter_length_bound].
  rewrite setBlockedModules_blocked. unfold spec_computeBlockedModules.
  rewrite length_map.
  induction (modfile.Require_ (modfile_ p)) as [|r l IH]; simpl; [lia|].
  destruct (modfile.Indirect r); simpl; [exact IH|].
  destruct (spec_allowed _ _); simpl; lia.
Qed.

(** X4: resolver and scanner together: after [setBlockedModules], a
    package is flagged iff go.mod has a direct requirement that neither
    allow test accepts and whose lowercase path is a prefix of the
    lowercase package path. *)
Theorem import_flagged_iff (p : Processor) (pkg : string) :
  isBlockedPackage (setBlockedModules p) pkg = true <->
  exists r, In r (modfile.Require_ (modfile_ p))
            /\ modfile.Indirect r = false
            /\ isAllowedModuleDomain p (module.Path (modfile.Mod r)) = false
            /\ isAllowedModule p (module.Path (modfile.Mod r)) = false
            /\ strings.HasPrefix (ToLower pkg)
                 (ToLower (module.Path (modfile.Mod r))) = true.
Proof.
  rewrite isBlockedPackage_iff, setBlockedModules_blocked.
  unfold spec_computeBlockedModules. split.
  - intros [b [Hin Hprefix]]. apply in_map_iff in Hin as [r [<- Hin]].
    apply filter_In in Hin as [Hin Hkeep].
    apply andb_true_iff in Hkeep as [Hdirect Hnot].
    apply negb_true_iff in Hdirect, Hnot.
    rewrite <- allowed_spec in Hnot. apply orb_false_iff in Hnot as [Hdom Hmod].
    exists r. auto.
  - intros [r (Hin & Hdirect & Hdom & Hmod & Hprefix)].
    exists (module.Path (modfile.Mod r)). split; [|assumption].
    apply in_map_iff. exists r. split; [reflexivity|].
    apply filter_In. split; [assumption|].
    rewrite Hdirect, <- allowed_spec, Hdom, Hmod. reflexivity.
Qed.

(** X5: on ASCII strings the exact-module test is the equality of the
    lowered strings: [isAllowedModule] accepts a module iff its lowercase
    form is the lowercase form of an allowed module. *)
Theorem isAllowedModule_ascii (p : Processor) (m : string) :
  strings.isASCII m = true ->
  (forall a, In a (Allow_Modules (Config_Allow (config p))) -> strings.isASCII a = true) ->
  (isAllowedModule p m = true <->
   exists a, In a (Allow_Modules (Config_Allow (config p))) /\ ToLower m = ToLower a).
Proof.
  intros Hm Hall. unfold isAllowedModule.
  rewrite isAllowedModule_loop_existsb, existsb_exists.
  split; intros [a [Hin H]]; exists a; (split; [assumption|]).
  - rewrite EqualFold_isASCII in H by auto. now apply String.eqb_eq.
  - rewrite EqualFold_isASCII by auto. now apply String.eqb_eq.
Qed.

(** X6: a requirement covered by the allow configuration is never
    blocked: not a path written as an allowed module is, and not a path
    that extends an allowed domain (ASCII strings). *)
Theorem allowed_dependency_not_blocked (p : Processor) (a rest : string) :
  strings.isASCII a = true ->
  strings.isASCII rest = true ->
  (In a (Allow_Modules (Config_Allow (config p))) ->
   ~ In a (blockedModules (setBlockedModules p)))
  /\ (In a (Allow_Domains (Config_Allow (config p))) ->
      ~ In (a ++ rest) (blockedModules (setBlockedModules p))).
Proof.
  intros Ha Hrest. rewrite setBlockedModules_blocked.
  unfold spec_computeBlockedModules.
  assert (Hout : forall m, spec_allowed (Config_Allow (config p)) m = true ->
            ~ In m (map (fun r => module.Path (modfile.Mod r))
                      (filter (fun r => negb (modfile.Indirect r)
                                 && negb (spec_allowed (Config_Allow (config p))
                                            (module.Path (modfile.Mod r))))
                         (modfile.Require_ (modfile_ p))))).
  { intros m Hallowed Hin. apply in_map_iff in Hin as [r [<- Hin]].
    apply filter_In in Hin as [_ Hkeep].
    rewrite Hallowed, andb_false_r in Hkeep. discriminate. }
  split; intros Hin; apply Hout, spec_allowed_true_iff.
  - right. exists a. split; [assumption|]. now apply EqualFold_refl_ascii.
  - left. exists a. split; [assumption|].
    rewrite ToLower_app_ascii by assumption. apply HasPrefix_app.
Qed.

End PolicyFacts.

(** ** More on matching *)

Section MatchingFacts.

Context {platform : Platform}.

(** X7: [isBlockedPackage] answers true for every blocked module path
    and for every path that extends one (ASCII strings). *)
Theorem package_under_blocked_module (p : Processor) (b rest : string) :
  In b (blockedModules p) ->
  strings.isASCII b = true ->
  strings.isASCII rest = true ->
  isBlockedPackage p (b ++ rest) = true.
Proof.
  intros Hin Hb Hrest. apply isBlockedPackage_iff. exists b.
  split; [assumption|].
  rewrite ToLower_app_ascii by assumption. apply HasPrefix_app.
Qed.

Lemma HasReplacement_ToLower (r : Replacement) (pkg : string) :
  strings.isASCII pkg = true ->
  HasReplacement r (ToLower pkg) = HasReplacement r pkg.
Proof.
  intros H. unfold HasReplacement. rewrite !HasReplacement_loop_existsb.
  now rewrite ToLower_idempotent_ascii.
Qed.

(** X8: the letter case of an ASCII package path does not matter to the
    scanner: the path and its lowercase form get the same verdict from
    [isBlockedPackage] and the same rule from [Get]. *)
Theorem scanner_ignores_case (p : Processor) (rs : Replacements) (pkg : string) :
  strings.isASCII pkg = true ->
  isBlockedPackage p (ToLower pkg) = isBlockedPackage p pkg
  /\ Get rs (ToLower pkg) = Get rs pkg.
Proof.
  intros H. split.
  - unfold isBlockedPackage. rewrite !isBlockedPackage_loop_existsb.
    now rewrite ToLower_idempotent_ascii.
  - induction rs as [|r rest IH]; simpl; [reflexivity|].
    now rewrite HasReplacement_ToLower, IH.
Qed.

(** X9: a rule with an empty trigger prefix matches every package path,
    so a table that holds such a rule has a suggestion for every blocked
    import. *)
Theorem empty_trigger_matches_everything (rs : Replacements) (r : Replacement)
    (pkg : string) :
  In r rs ->
  In EmptyString (Modules r) ->
  HasReplacement r pkg = true /\ Get rs pkg <> None.
Proof.
  intros Hr Hempty.
  assert (Hhas : HasReplacement r pkg = true).
  { apply HasReplacement_iff. exists EmptyString. split; [assumption|].
    rewrite ToLower_empty. apply HasPrefix_empty. }
  split; [assumption|].
  induction rs as [|r0 rest IH]; simpl; [contradiction|].
  destruct (HasReplacement r0 pkg) eqn:H0; [discriminate|].
  destruct Hr as [->|Hr]; [congruence|auto].
Qed.

Lemma trimRightByte_snoc (c : ascii) (s : string) :
  strings.trimRightByte (s ++ String c EmptyString) c = strings.trimRightByte s c.
Proof.
  induction s as [|x s IH]; simpl.
  - now rewrite Ascii.eqb_refl.
  - now rewrite IH.
Qed.

Lemma trimRightByte_absent (c : ascii) (s : string) :
  (forall x, In x (list_ascii_of_string s) -> x <> c) ->
  strings.trimRightByte s c = s.
Proof.
  induction s as [|x s IH]; simpl; [reflexivity|].
  intros H. rewrite IH by (intros y Hy; apply H; now right).
  destruct s; [|reflexivity].
  assert (Hx : x <> c) by (apply H; now left).
  apply Ascii.eqb_neq in Hx. now rewrite Hx.
Qed.

(** X10: for an import literal written between double quotes, the path
    the scanner tests is the text between the quotes, when that text
    holds no double quote itself. *)
Theorem importPath_quoted (s : string) (pos : token.Pos) :
  (forall x, In x (list_ascii_of_string s) -> x <> dquote) ->
  importPath (ast.mkImportSpec (String dquote (s ++ String dquote EmptyString)) pos) = s.
Proof.
  intros H. unfold importPath, strings.Trim. cbn [ast.Path_Value].
  change (String dquote (s ++ String dquote EmptyString))
    with ((String dquote s) ++ String dquote EmptyString).
  rewrite trimRightByte_snoc. cbn [strings.trimRightByte].
  rewrite (trimRightByte_absent dquote s H).
  destruct s as [|x s].
  - rewrite Ascii.eqb_refl. reflexivity.
  - assert (Hx : Ascii.eqb x dquote = false)
      by (apply Ascii.eqb_neq, H; now left).
    cbn [strings.trimLeftByte]. rewrite Ascii.eqb_refl, Hx. reflexivity.
Qed.

(** X11: an import literal written between backquotes (a raw string) is
    tested with its backquotes, since only double quotes are trimmed: no
    blocked entry that is ASCII, not empty and does not itself begin with
    a backquote matches it, and [process] reports nothing for it. *)
Theorem raw_import_literal_not_flagged (p : Processor) (path : string)
    (pos : token.Pos) (fileSet : token.FileSet) :
  strings.isASCII path = true ->
  (forall b, In b (blockedModules p) ->
     strings.isASCII b = true /\ b <> EmptyString /\ strings.HasPrefix b "`" = false) ->
  importPath (ast.mkImportSpec ("`" ++ path ++ "`") pos) = "`" ++ path ++ "`"
  /\ isBlockedPackage p ("`" ++ path ++ "`") = false
  /\ process_loop p fileSet [ast.mkImportSpec ("`" ++ path ++ "`") pos] = p.
Proof.
  intros Hpath Hblocked.
  assert (Hlit : importPath (ast.mkImportSpec ("`" ++ path ++ "`") pos)
                 = "`" ++ path ++ "`").
  { unfold importPath, strings.Trim. cbn [ast.Path_Value].
    change ("`" ++ path ++ "`") with ((String "`" path) ++ String "`" EmptyString).
    rewrite trimRightByte_last by discriminate. reflexivity. }
  assert (Hnot : isBlockedPackage p ("`" ++ path ++ "`") = false).
  { unfold isBlockedPackage. rewrite isBlockedPackage_loop_existsb.
    apply existsb_false_iff. intros b Hin.
    destruct (Hblocked b Hin) as (Hb & Hne & Hfirst).
    rewrite (ToLower_isASCII b Hb), ToLower_isASCII.
    2:{ change ("`" ++ path ++ "`") with (String "`" (path ++ "`")).
        cbn [strings.isASCII]. rewrite isASCII_app, Hpath. reflexivity. }
    destruct b as [|c b]; [congruence|].
    cbn [strings.HasPrefix] in Hfirst. rewrite HasPrefix_empty, andb_true_r in Hfirst.
    change ("`" ++ path ++ "`") with (String "`" (path ++ "`")).
    cbn [strings.mapBytes strings.HasPrefix].
    destruct (Ascii.eqb (strings.lowerByte "`") (strings.lowerByte c)) eqn:Heq;
      [|reflexivity].
    apply Ascii.eqb_eq in Heq. symmetry in Heq.
    change (strings.lowerByte "`") with "`"%char in Heq.
    apply lowerByte_backquote in Heq. subst c.
    rewrite Ascii.eqb_refl in Hfirst. discriminate. }
  split; [assumption|]. split; [assumption|].
  rewrite process_loop_result. unfold importResults. cbn [filter].
  rewrite Hlit, Hnot. cbn [map]. rewrite app_nil_r. apply set_result_same.
Qed.

End MatchingFacts.

(** ** More on running the scanner *)

Section ScannerFacts.

Context {platform : Platform}.

(** X12: with a blocked module at hand, a scan makes one attempt per
    submitted file, in submission order: after the [Printf] of its first
    line it reads each file once and then parses it once, on the bytes
    the read returned, whether the read failed or not. *)
Theorem ProcessFiles_trace (p : Processor) (filenames : list string) (t : Trace) :
  blockedModules p <> [] ->
  snd (runState (ProcessFiles p filenames) t)
  = (t ++ EvPrintf (logger p) "info: go.mod file has '%d' blocked module(s), %+v"
            [OInt (Z.of_nat (List.length (blockedModules p)));
             OStrings (blockedModules p)]
       :: flat_map (fun filename =>
                      [EvReadFile filename;
                       EvParseFile filename (fst (ReadFile filename))])
            filenames)%list.
Proof.
  intros Hblocked. rewrite ProcessFiles_run. cbn [snd].
  destruct (blockedModules p); [contradiction|reflexivity].
Qed.

Lemma produced_app (p : Processor) (first second : list string) :
  produced p (first ++ second) = (produced p first ++ produced p second)%list.
Proof.
  unfold produced. destruct (blockedModules p); [reflexivity|apply flat_map_app].
Qed.

(** X13: scanning two batches one after the other leaves the processor,
    and returns the slice, that one scan of the two batches together
    does. *)
Theorem ProcessFiles_app (p : Processor) (first second : list string)
    (t t' t'' : Trace) :
  fst (runState
         (ProcessFiles (fst (fst (runState (ProcessFiles p first) t))) second) t')
  = fst (runState (ProcessFiles p (first ++ second)) t'').
Proof.
  rewrite !ProcessFiles_run. cbn [fst result set_result].
  rewrite produced_app, app_assoc. reflexivity.
Qed.

(** A file contributes no diagnostic iff it is read and parsed without
    error and [isBlockedPackage] rejects every one of its import
    literals, taken with its double quotes trimmed. *)
Lemma fileResults_nil_iff (p : Processor) (filename : string) :
  fileResults p filename = [] <->
  snd (ReadFile filename) = None
  /\ snd (ParseFile filename (fst (ReadFile filename))) = None
  /\ forall imp,
       In imp (ast.Imports (snd (fst (ParseFile filename (fst (ReadFile filename)))))) ->
       isBlockedPackage p (importPath imp) = false.
Proof.
  unfold fileResults, readResults, parseResults, importResults.
  destruct (snd (ReadFile filename)) as [e|].
  { split; [discriminate|]. intros [H _]. discriminate. }
  destruct (ParseFile filename (fst (ReadFile filename))) as [[fileSet file] [e|]];
    cbn [fst snd app].
  { split; [discriminate|]. intros (_ & H & _). discriminate. }
  split.
  - intros H. split; [reflexivity|]. split; [reflexivity|].
    apply map_eq_nil in H.
    intros imp Hin.
    destruct (isBlockedPackage p (importPath imp)) eqn:Hb; [|reflexivity].
    assert (Hf : In imp (filter (fun imp => isBlockedPackage p (importPath imp))
                           (ast.Imports file))) by (apply filter_In; auto).
    rewrite H in Hf. destruct Hf.
  - intros (_ & _ & H). now rewrite filter_none.
Qed.

(** X14: on a processor that blocks something and has reported nothing
    yet, [ProcessFiles] returns the empty slice iff every submitted file
    is read without error, is parsed without error, and has no import
    literal that, with its double quotes trimmed, [isBlockedPackage]
    accepts.  The test is on the literal: an import written between
    backquotes is tested with them, so a file can import a blocked
    module that way and still leave the slice empty. *)
Theorem ProcessFiles_empty_iff (p : Processor) (filenames : list string) (t : Trace) :
  blockedModules p <> [] ->
  result p = [] ->
  (snd (fst (runState (ProcessFiles p filenames) t)) = [] <->
   forall filename, In filename filenames ->
     snd (ReadFile filename) = None
     /\ snd (ParseFile filename (fst (ReadFile filename))) = None
     /\ forall imp,
          In imp (ast.Imports
                    (snd (fst (ParseFile filename (fst (ReadFile filename)))))) ->
          isBlockedPackage p (importPath imp) = false).
Proof.
  intros Hblocked Hempty. rewrite ProcessFiles_run. cbn [fst snd].
  rewrite Hempty. cbn [app]. unfold produced.
  destruct (blockedModules p) as [|b bs] eqn:Hb; [contradiction|].
  clear Hblocked. induction filenames as [|f rest IH]; cbn [flat_map].
  - split; [intros _ f []|reflexivity].
  - split.
    + intros H. apply app_eq_nil in H as [Hf Hrest].
      intros filename [<-|Hin].
      * now apply fileResults_nil_iff.
      * now apply IH.
    + intros H.
      rewrite (proj2 (fileResults_nil_iff p f) (H f (or_introl eq_refl))).
      apply IH. intros filename Hin. apply H. now right.
Qed.

(** X15: the blocked list a client's processor holds stays the one its
    configuration and go.mod determine, whatever scans were run on it. *)
Theorem Reachable_blockedModules (p : Processor) :
  Reachable p ->
  blockedModules p
  = spec_computeBlockedModules (modfile.Require_ (modfile_ p)) (Config_Allow (config p)).
Proof.
  induction 1 as [config logger t p Hnew|p filenames t Hp IH].
  - rewrite NewProcessor_run in Hnew.
    destruct (snd (ReadFile goModFile)); [discriminate|].
    destruct (modfileParse _ _); [|discriminate].
    injection Hnew as <-. now rewrite setBlockedModules_blocked.
  - rewrite ProcessFiles_run. exact IH.
Qed.

Lemma importResults_LineNumber (p : Processor) (fileSet : token.FileSet)
    (imports : list ast.ImportSpec) (r : Result) :
  In r (importResults p fileSet imports) ->
  LineNumber r = token.Line (Position r) /\ FileName r = token.Filename (Position r).
Proof.
  unfold importResults. intros H. apply in_map_iff in H as [imp [<- _]].
  split; reflexivity.
Qed.

Lemma fileResults_LineNumber (p : Processor) (filename : string) (r : Result) :
  In r (fileResults p filename) -> LineNumber r = token.Line (Position r).
Proof.
  unfold fileResults, readResults, parseResults. intros H.
  apply in_app_or in H as [H|H].
  - destruct (snd (ReadFile filename)); [|contradiction].
    destruct H as [<-|[]]. reflexivity.
  - destruct (ParseFile filename (fst (ReadFile filename))) as [[fileSet file] [e|]].
    + destruct H as [<-|[]]. reflexivity.
    + now apply importResults_LineNumber in H.
Qed.

(** X16: in every diagnostic a client's processor holds, the line number
    is the line of the position: both are zero for a file that could not
    be read or parsed, both are the import's line otherwise. *)
Theorem Reachable_LineNumber (p : Processor) (r : Result) :
  Reachable p ->
  In r (result p) ->
  LineNumber r = token.Line (Position r).
Proof.
  intros Hp. revert r.
  induction Hp as [config logger t p Hnew|p filenames t Hp IH]; intros r.
  - rewrite NewProcessor_run in Hnew.
    destruct (snd (ReadFile goModFile)); [discriminate|].
    destruct (modfileParse _ _); [|discriminate].
    injection Hnew as <-. intros [].
  - rewrite ProcessFiles_run. cbn [fst result set_result].
    intros H. apply in_app_or in H as [H|H]; [now apply IH|].
    unfold produced in H. destruct (blockedModules p); [contradiction|].
    apply in_flat_map in H as [filename [_ H]].
    now apply fileResults_LineNumber in H.
Qed.

(** X17: [NewProcessor] fails exactly when go.mod cannot be read or
    cannot be parsed.  When the read fails, go.mod is not parsed: the
    calls made are the read and one [Printf] of the message that the
    error returned carries.  When the parse fails, the calls are the
    read, the parse and that [Printf].  Otherwise the processor holds the
    configuration and logger given, the parsed go.mod and no diagnostic,
    and two [Printf]s report the allow lists. *)
Theorem NewProcessor_outcome (cfg : Configuration) (lg : Logger) (t : Trace) :
  runState (NewProcessor cfg lg) t
  = match ReadFile goModFile with
    | (moddata, Some e) =>
        (inr (fmt_Errorf ("unable to read go.mod file: " ++ e)),
         (t ++ [EvReadFile goModFile;
                EvPrintf lg ("unable to read go.mod file: " ++ e) []])%list)
    | (moddata, None) =>
        match modfileParse goModFile moddata with
        | inr e =>
            (inr (fmt_Errorf ("unable to parse go.mod file: " ++ e)),
             (t ++ [EvReadFile goModFile; EvModfileParse goModFile moddata;
                    EvPrintf lg ("unable to parse go.mod file: " ++ e) []])%list)
        | inl mfile =>
            (inl (mkProcessor cfg lg mfile
                    (spec_computeBlockedModules (modfile.Require_ mfile)
                       (Config_Allow cfg)) []),
             (t ++ [EvReadFile goModFile; EvModfileParse goModFile moddata;
                    EvPrintf lg "info: allowed modules, %+v"
                      [OStrings (Allow_Modules (Config_Allow cfg))];
                    EvPrintf lg "info: allowed module domains, %+v"
                      [OStrings (Allow_Domains (Config_Allow cfg))]])%list)
        end
    end.
Proof.
  unfold NewProcessor, ioutil_ReadFile, modfile_Parse, Printf, emit.
  cbn [runState bind ret Monad_state modify MonadState_state get put fst snd].
  destruct (ReadFile goModFile) as [moddata [e|]]; cbn [runState].
  - rewrite <- app_assoc. reflexivity.
  - destruct (modfileParse goModFile moddata) as [mfile|e]; cbn [runState].
    + rewrite <- !app_assoc. cbn [app]. f_equal. f_equal.
      unfold setBlockedModules, set_blockedModules.
      cbn [config logger modfile_ result].
      now rewrite setBlockedModules_loop_app.
    + rewrite <- !app_assoc. reflexivity.
Qed.

(** X18: [Result.String] of two diagnostics with the same file name and
    the same reason is the same text only if their line numbers are the
    same; the position takes no part in the text. *)
Theorem Result_String_LineNumber (r r' : Result) :
  FileName r = FileName r' ->
  Result_Reason r = Result_Reason r' ->
  (Result_String r = Result_String r' <-> LineNumber r = LineNumber r').
Proof.
  intros Hfile Hreason. unfold Result_String. rewrite Hfile, Hreason. split.
  - intros H. apply append_cancel_l in H. apply append_cancel_l in H.
    apply append_cancel_r in H. unfold itoa in H.
    assert (Hint : DecimalString.NilEmpty.int_of_string
                     (DecimalString.NilEmpty.string_of_int (Z.to_int (LineNumber r)))
                   = DecimalString.NilEmpty.int_of_string
                       (DecimalString.NilEmpty.string_of_int (Z.to_int (LineNumber r'))))
      by now rewrite H.
    rewrite !DecimalString.NilEmpty.isi in Hint. injection Hint as Hint.
    rewrite <- (DecimalZ.of_to (LineNumber r)), <- (DecimalZ.of_to (LineNumber r')).
    now rewrite Hint.
  - now intros ->.
Qed.

End ScannerFacts.

(** ** The example project, further runs *)

Section MoreExamples.

#[local] Existing Instance Example.platform.

Lemma empty_domain_allows_everything_witness :
  blockedModules
    (setBlockedModules
       (mkProcessor (mkConfiguration (mkAllow [] [EmptyString]) [])
          (LoggerRef 0) Example.goMod [] []))
  = [].
Proof.
  exact (proj2 (empty_domain_allows_everything
                  (mkProcessor (mkConfiguration (mkAllow [] [EmptyString]) [])
                     (LoggerRef 0) Example.goMod [] [])
                  (or_introl eq_refl))).
Defined.

Lemma allow_lists_monotone_witness :
  incl (blockedModules (setBlockedModules Example.processorAll))
    (blockedModules (setBlockedModules Example.processor)).
Proof.
  exact (proj1 (allow_lists_monotone Example.processor Example.processorAll
                  eq_refl (incl_refl _) (incl_nil_l _))).
Defined.

Lemma isAllowedModule_ascii_witness :
  isAllowedModule Example.processorAll "GitHub.com/Evil/PKG" = true <->
  exists a, In a ["github.com/evil/pkg"]
            /\ ToLower "GitHub.com/Evil/PKG" = ToLower a.
Proof.
  apply (isAllowedModule_ascii Example.processorAll "GitHub.com/Evil/PKG").
  - reflexivity.
  - intros a [<-|[]]. reflexivity.
Defined.

Lemma allowed_dependency_not_blocked_witness :
  (In "github.com/ok" (Allow_Modules (Config_Allow (config Example.processor))) ->
   ~ In "github.com/ok" (blockedModules (setBlockedModules Example.processor)))
  /\ (In "github.com/ok" (Allow_Domains (Config_Allow (config Example.processor))) ->
      ~ In "github.com/ok/pkg" (blockedModules (setBlockedModules Example.processor))).
Proof.
  apply (allowed_dependency_not_blocked Example.processor "github.com/ok" "/pkg");
    reflexivity.
Defined.

Lemma package_under_blocked_module_witness :
  isBlockedPackage Example.processor "github.com/evil/pkg/sub/deeper" = true.
Proof.
  apply (package_under_blocked_module Example.processor
           "github.com/evil/pkg" "/sub/deeper").
  - now left.
  - reflexivity.
  - reflexivity.
Defined.

Lemma scanner_ignores_case_witness :
  isBlockedPackage Example.processor (ToLower "GitHub.com/Evil/PKG/Sub")
  = isBlockedPackage Example.processor "GitHub.com/Evil/PKG/Sub"
  /\ Get Example.replacements (ToLower "GitHub.com/Evil/PKG/Sub")
     = Get Example.replacements "GitHub.com/Evil/PKG/Sub".
Proof.
  apply (scanner_ignores_case Example.processor Example.replacements
           "GitHub.com/Evil/PKG/Sub").
  reflexivity.
Defined.

Lemma empty_trigger_matches_everything_witness :
  HasReplacement (mkReplacement [EmptyString] "example.com/any" "always") "fmt" = true
  /\ Get (Example.replacements
          ++ [mkReplacement [EmptyString] "example.com/any" "always"])%list "fmt"
     <> None.
Proof.
  apply (empty_trigger_matches_everything
           (Example.replacements
            ++ [mkReplacement [EmptyString] "example.com/any" "always"])%list
           (mkReplacement [EmptyString] "example.com/any" "always") "fmt").
  - right. right. now left.
  - now left.
Defined.

Lemma importPath_quoted_witness :
  importPath (ast.mkImportSpec (Example.quoted "fmt") 24%Z) = "fmt".
Proof.
  apply (importPath_quoted "fmt" 24%Z).
  intros x [<-|[<-|[<-|[]]]]; discriminate.
Defined.

Lemma raw_import_literal_not_flagged_witness :
  importPath (ast.mkImportSpec "`github.com/evil/pkg`" 24%Z) = "`github.com/evil/pkg`"
  /\ isBlockedPackage Example.processor "`github.com/evil/pkg`" = false
  /\ process_loop Example.processor (Example.fileSetOf "main.go")
       [ast.mkImportSpec "`github.com/evil/pkg`" 24%Z]
     = Example.processor.
Proof.
  apply (raw_import_literal_not_flagged Example.processor "github.com/evil/pkg"
           24%Z (Example.fileSetOf "main.go")).
  - reflexivity.
  - intros b [<-|[]].
    split; [reflexivity|]. split; [discriminate|reflexivity].
Defined.

Lemma ProcessFiles_trace_witness :
  snd (runState (ProcessFiles Example.processor ["missing.go"; "main.go"]) [])
  = [EvPrintf (LoggerRef 0) "info: go.mod file has '%d' blocked module(s), %+v"
       [OInt 1; OStrings ["github.com/evil/pkg"]];
     EvReadFile "missing.go"; EvParseFile "missing.go" EmptyString;
     EvReadFile "main.go"; EvParseFile "main.go" "package main; import (...)"].
Proof.
  refine (ProcessFiles_trace Example.processor ["missing.go"; "main.go"] [] _).
  discriminate.
Defined.

Lemma Reachable_blockedModules_witness :
  blockedModules Example.processor
  = spec_computeBlockedModules (modfile.Require_ Example.goMod) Example.allowOk.
Proof.
  exact (Reachable_blockedModules Example.processor Example_processor_Reachable).
Defined.

Lemma Reachable_LineNumber_witness :
  LineNumber Example.mainResult = token.Line (Position Example.mainResult).
Proof.
  apply (Reachable_LineNumber
           (fst (fst (runState (ProcessFiles Example.processor ["main.go"]) [])))
           Example.mainResult).
  - apply Reachable_ProcessFiles, Example_processor_Reachable.
  - now left.
Defined.

Lemma Result_String_LineNumber_witness :
  Result_String Example.mainResult
  = Result_String (mkResult "main.go" 4 token.zero (Result_Reason Example.mainResult))
  <-> LineNumber Example.mainResult = 4%Z.
Proof.
  apply (Result_String_LineNumber Example.mainResult
           (mkResult "main.go" 4 token.zero (Result_Reason Example.mainResult)));
    reflexivity.
Defined.

(** The text of the diagnostic of main.go, and of a negative line. *)
Example Result_String_mainResult :
  Result_String (mkResult "main.go" 3 token.zero "blocked") = "main.go:3: blocked"
  /\ Result_String (mkResult "main.go" (-12) token.zero "blocked")
     = "main.go:-12: blocked".
Proof. split; reflexivity. Qed.

End MoreExamples.

(** ** Imports written as raw string literals *)

Section RawExamples.

#[local] Existing Instance ExampleRaw.platform.

(** C2: on the project whose go.mod blocks github.com/evil/pkg, the
    processor [NewProcessor] builds reports the import of that package
    in quoted.go, where the path is between double quotes, and reports
    nothing for raw.go, which imports the same package with the path
    between backquotes: [process] trims double quotes only, so the
    string it tests begins with a backquote and no blocked entry is a
    prefix of it. *)
Theorem ProcessFiles_raw_import_example :
  fst (runState (NewProcessor Example.configuration (LoggerRef 0)) [])
  = inl Example.processor
  /\ snd (fst (runState (ProcessFiles Example.processor ["quoted.go"]) []))
     = [ExampleRaw.quotedResult]
  /\ importPath (ast.mkImportSpec "`github.com/evil/pkg`" 21%Z)
     = "`github.com/evil/pkg`"
  /\ isBlockedPackage Example.processor "github.com/evil/pkg" = true
  /\ isBlockedPackage Example.processor "`github.com/evil/pkg`" = false
  /\ runState (ProcessFiles Example.processor ["raw.go"]) []
     = ((Example.processor, []),
        [EvPrintf (LoggerRef 0) "info: go.mod file has '%d' blocked module(s), %+v"
           [OInt 1; OStrings ["github.com/evil/pkg"]];
         EvReadFile "raw.go"; EvParseFile "raw.go" ExampleRaw.rawSource]).
Proof. repeat split. Qed.

(** raw.go is read and parsed without error and its one import literal,
    backquotes included, is not accepted: the slice is empty. *)
Lemma ProcessFiles_empty_iff_witness :
  snd (fst (runState (ProcessFiles Example.processor ["raw.go"]) [])) = []
  /\ (snd (fst (runState (ProcessFiles Example.processor ["raw.go"]) [])) = [] <->
      forall filename, In filename ["raw.go"] ->
        snd (ReadFile filename) = None
        /\ snd (ParseFile filename (fst (ReadFile filename))) = None
        /\ forall imp,
             In imp (ast.Imports
                       (snd (fst (ParseFile filename (fst (ReadFile filename)))))) ->
             isBlockedPackage Example.processor (importPath imp) = false).
Proof.
  split; [reflexivity|].
  apply (ProcessFiles_empty_iff Example.processor ["raw.go"] []).
  - discriminate.
  - reflexivity.
Defined.

End RawExamples.
